(** * Balance summary screen

    A shallow embedding of the two versions of the balance screen of the
    exchange application:

    - [src/app/(tabs)/balance.tsx], embedded in module [BalanceTsx];
    - [src/unnamed/part_000], the version that also converts the total into
      the display currency, embedded in module [Part000].

    The screen reads a list of transactions, aggregates it per source
    currency for the selected display currency, computes a net total in the
    base currency (DZD) and renders the result.

    JavaScript numbers are kept abstract behind the class [Number]; the
    instance [float_Number] interprets them as IEEE 754 binary64 values,
    which is what the program computes with. *)

From Stdlib Require Import List String Bool Floats ZArith Lia Permutation.
Import ListNotations.

Set Implicit Arguments.
Set Warnings "-inexact-float".

Local Open Scope string_scope.
Local Open Scope list_scope.

(** ** JavaScript numbers *)

(** The operations the screen applies to values of type [number]. *)
Class Number (num : Type) : Type := {
  nzero : num;                      (* the literal 0 *)
  nadd : num -> num -> num;         (* a + b *)
  nsub : num -> num -> num;         (* a - b *)
  nmul : num -> num -> num;         (* a * b *)
  ndiv : num -> num -> num;         (* a / b *)
  nneg : num -> num;                (* -a *)
  ngtb : num -> num -> bool;        (* a > b *)
  truthy : num -> bool;             (* ToBoolean(a) *)
  ofLength : nat -> num             (* array.length, as a number *)
}.

Declare Scope num_scope.
Delimit Scope num_scope with num.
Notation "a + b" := (nadd a b) : num_scope.
Notation "a - b" := (nsub a b) : num_scope.
Notation "a * b" := (nmul a b) : num_scope.
Notation "a / b" := (ndiv a b) : num_scope.
Notation "- a" := (nneg a) : num_scope.
Notation "a >? b" := (ngtb a b) (at level 70, no associativity) : num_scope.

(** [a || 0] on a number: [a] when it is truthy, the literal 0 otherwise. *)
Definition orZero {num} `{Number num} (a : num) : num :=
  if truthy a then a else nzero.

(** IEEE 754 binary64.  A number is falsy when it is [+0], [-0] or [NaN];
    [=?] is the IEEE comparison, for which [-0 =? 0] holds and [NaN =? NaN]
    does not.  The length of an array is below [2^32], hence exactly
    representable. *)
#[export] Instance float_Number : Number float := {
  nzero := 0%float;
  nadd := PrimFloat.add;
  nsub := PrimFloat.sub;
  nmul := PrimFloat.mul;
  ndiv := PrimFloat.div;
  nneg := PrimFloat.opp;
  ngtb := fun a b => PrimFloat.ltb b a;
  truthy := fun a => negb (PrimFloat.eqb a 0%float) && negb (PrimFloat.is_nan a);
  ofLength := fun n => PrimFloat.of_uint63 (Uint63.of_Z (Z.of_nat n))
}.

(** What the tests [a > 0] and [ToBoolean(a)] say of zero and of a positive
    number.  The three properties hold of binary64. *)
Class PositiveLaws (num : Type) `{Number num} : Prop := {
  gtb_zero_zero : (nzero >? nzero)%num = false;
  zero_falsy : truthy (nzero : num) = false;
  positive_truthy : forall a : num, (a >? nzero)%num = true -> truthy a = true
}.

(** ** JavaScript [Map] with string keys

    A [Map] iterates in insertion order, and [set] on a key that is present
    replaces its value where it stands. *)
Section JsMap.
Variable V : Type.

Definition JsMap : Type := list (string * V).

Definition map_new : JsMap := [].

Fixpoint map_get (key : string) (m : JsMap) : option V :=
    match m with
    | [] => None
    | (k, v) :: m' => if String.eqb k key then Some v else map_get key m'
    end.

Fixpoint map_set (key : string) (v : V) (m : JsMap) : JsMap :=
    match m with
    | [] => [(key, v)]
    | (k, v') :: m' =>
        if String.eqb k key then (k, v) :: m' else (k, v') :: map_set key v m'
    end.

Definition map_entries (m : JsMap) : list (string * V) := m.
End JsMap.

(** ** Data model *)

(** The display currency, ['USD' | 'EUR']. *)
Inductive Currency : Type := USD | EUR.

Definition Currency_eqb (a b : Currency) : bool :=
  match a, b with
  | USD, USD | EUR, EUR => true
  | _, _ => false
  end.

Definition Currency_name (c : Currency) : string :=
  match c with USD => "USD" | EUR => "EUR" end.

Inductive TransactionType : Type := buy | sell.

(** Modelled from the spec: the transaction record, which the screen obtains
    from the hook [useTransactionHistory]; the declaration is not part of
    the two files.  "Transaction: { currencyCode: string, targetCurrency:
    USD|EUR, type: buy|sell, amount: number (>0), rate: number (>0) }". *)
Module Transaction.
Record t (num : Type) : Type := {
    currencyCode : string;
    targetCurrency : Currency;
    type : TransactionType;
    amount : num;
    rate : num
  }.
End Transaction.

(** Modelled from the spec: an entry of the static currency reference table
    [CURRENCIES] of [data/currencies], "mapping currency code to display
    metadata (name, flag image reference)"; the screen reads the fields
    [code], [name] and [flagUrl]. *)
Module CurrencyInfo.
Record t : Type := {
    code : string;
    name : string;
    flagUrl : string
  }.
End CurrencyInfo.

(** The object kept in [balanceMap] for a currency code. *)
Module Balance.
Record t (num : Type) : Type := {
    buys : num;
    sells : num;
    currency : option CurrencyInfo.t;    (* [undefined] when [find] fails *)
    targetCurrency : Currency
  }.
End Balance.

(** A row of [balances]: [{ code, ...data, netTotal }]. *)
Module Row.
Record t (num : Type) : Type := {
    code : string;
    buys : num;
    sells : num;
    currency : option CurrencyInfo.t;
    targetCurrency : Currency;
    netTotal : num
  }.
End Row.

(** ** What the screen renders *)

(** [styles.positive] and [styles.negative]. *)
Inductive Style : Type := positive | negative.

(** Reading a property of [undefined] throws a [TypeError]. *)
Inductive Exception : Type := TypeError (property : string).

Inductive Outcome (A : Type) : Type :=
| Rendered (a : A)
| Throws (e : Exception).
Arguments Rendered {A} a.
Arguments Throws {A} e.

Definition bind {A B} (o : Outcome A) (k : A -> Outcome B) : Outcome B :=
  match o with
  | Rendered a => k a
  | Throws e => Throws e
  end.

(** Rendering the elements of a list from left to right. *)
Fixpoint renderAll {A B} (f : A -> Outcome B) (l : list A) : Outcome (list B) :=
  match l with
  | [] => Rendered []
  | a :: l' =>
      bind (f a) (fun b => bind (renderAll f l') (fun bs => Rendered (b :: bs)))
  end.

(** The card of one currency. *)
Record BalanceItem : Type := {
  flagUri : string;
  currencyName : string;
  currencyCodeText : string;
  totalBuys : string;
  totalSells : string;
  netTotalStyle : Style;
  netTotalText : string
}.

(** Below the summary card: the list of cards, or the message
    "No transactions in <display currency>". *)
Inductive ListArea : Type :=
| FlatList (items : list BalanceItem)
| NoTransactionsIn (displayCurrency : Currency).

(** A coloured amount of the summary card. *)
Record TotalValue : Type := {
  valueStyle : Style;
  valueText : string
}.

(** The summary card; [secondaryValue] is the converted total, which only
    the second version of the screen can show. *)
Record TotalBalanceCard : Type := {
  cardLabel : string;
  primaryValue : TotalValue;
  secondaryValue : option TotalValue
}.

Inductive Screen : Type :=
| EmptyState (title description icon : string)
| Summary (selectorText : string) (card : TotalBalanceCard) (area : ListArea).

(** ** [src/app/(tabs)/balance.tsx] *)
Module BalanceTsx.
Section BalanceTsxScreen.
Context {num : Type} `{Number num}.
Variable CURRENCIES : list CurrencyInfo.t.
Variable formatCurrency : num -> string -> string.

Local Open Scope num_scope.

  (** The body of [transactions.forEach] in [balances]. *)
Definition accumulate (displayCurrency : Currency)
      (balanceMap : JsMap (Balance.t num)) (transaction : Transaction.t num)
      : JsMap (Balance.t num) :=
    if Currency_eqb (Transaction.targetCurrency transaction) displayCurrency then
      let key := Transaction.currencyCode transaction in
      let currentBalance :=
        match map_get key balanceMap with
        | Some b => b
        | None =>
            {| Balance.buys := nzero;
               Balance.sells := nzero;
               Balance.currency :=
                 find (fun c => String.eqb (CurrencyInfo.code c) key) CURRENCIES;
               Balance.targetCurrency := Transaction.targetCurrency transaction |}
        end in
      let currentBalance :=
        match Transaction.type transaction with
        | buy =>
            {| Balance.buys := Balance.buys currentBalance + Transaction.amount transaction;
               Balance.sells := Balance.sells currentBalance;
               Balance.currency := Balance.currency currentBalance;
               Balance.targetCurrency := Balance.targetCurrency currentBalance |}
        | sell =>
            {| Balance.buys := Balance.buys currentBalance;
               Balance.sells := Balance.sells currentBalance + Transaction.amount transaction;
               Balance.currency := Balance.currency currentBalance;
               Balance.targetCurrency := Balance.targetCurrency currentBalance |}
        end in
      map_set key currentBalance balanceMap
    else balanceMap.

  (** [transactions.find(t => ...)?.rate || 0] *)
Definition rateOf (transactions : list (Transaction.t num))
      (code : string) (target : Currency) : num :=
    match
      find (fun t => String.eqb (Transaction.currencyCode t) code
                     && Currency_eqb (Transaction.targetCurrency t) target)
           transactions
    with
    | Some t => orZero (Transaction.rate t)
    | None => nzero
    end.

Definition balances (transactions : list (Transaction.t num))
      (displayCurrency : Currency) : list (Row.t num) :=
    let balanceMap := fold_left (accumulate displayCurrency) transactions (map_new _) in
    map (fun '(code, data) =>
           {| Row.code := code;
              Row.buys := Balance.buys data;
              Row.sells := Balance.sells data;
              Row.currency := Balance.currency data;
              Row.targetCurrency := Balance.targetCurrency data;
              Row.netTotal :=
                (Balance.buys data - Balance.sells data)
                * rateOf transactions code (Balance.targetCurrency data) |})
        (map_entries balanceMap).

Definition totalNetBalanceDZD (transactions : list (Transaction.t num)) : num :=
    fold_left
      (fun total transaction =>
         let amount :=
           match Transaction.type transaction with
           | buy => Transaction.amount transaction
           | sell => - Transaction.amount transaction
           end in
         total + amount * Transaction.rate transaction)
      transactions nzero.

Definition toggleDisplayCurrency (current : Currency) : Currency :=
    match current with USD => EUR | EUR => USD end.

Definition styleOf (value : num) : Style :=
    if value >? nzero then positive else negative.

Definition renderBalanceItem (displayCurrency : Currency) (item : Row.t num)
      : Outcome BalanceItem :=
    match Row.currency item with
    | None => Throws (TypeError "flagUrl")
    | Some currency =>
        Rendered
          {| flagUri := CurrencyInfo.flagUrl currency;
             currencyName := CurrencyInfo.name currency;
             currencyCodeText := Row.code item;
             totalBuys := formatCurrency (Row.buys item) (Currency_name displayCurrency);
             totalSells := formatCurrency (Row.sells item) (Currency_name displayCurrency);
             netTotalStyle := styleOf (Row.netTotal item);
             netTotalText :=
               formatCurrency (Row.buys item - Row.sells item)
                              (Currency_name displayCurrency) |}
    end.

Definition BalanceScreen (transactions : list (Transaction.t num))
      (displayCurrency : Currency) : Outcome Screen :=
    if (0 <? List.length transactions)%nat then
      let card :=
        {| cardLabel := "Total Net Balance (DZD):";
           primaryValue :=
             {| valueStyle := styleOf (totalNetBalanceDZD transactions);
                valueText := formatCurrency (totalNetBalanceDZD transactions) "DZD" |};
           secondaryValue := None |} in
      let rows := balances transactions displayCurrency in
      if (0 <? List.length rows)%nat then
        bind (renderAll (renderBalanceItem displayCurrency) rows)
             (fun items =>
                Rendered (Summary (Currency_name displayCurrency) card (FlatList items)))
      else
        Rendered (Summary (Currency_name displayCurrency) card
                          (NoTransactionsIn displayCurrency))
    else
      Rendered (EmptyState "No transactions yet"
        "Your balance summary will appear here once you make transactions"
        "history").
End BalanceTsxScreen.
End BalanceTsx.

(** ** [src/unnamed/part_000] *)

(** An object with the two keys [EUR] and [USD]. *)
Module Rates.
Record t (A : Type) : Type := { EUR : A; USD : A }.
End Rates.

(** [rates[displayCurrency]] *)
Definition ratesAt {A} (r : Rates.t A) (c : Currency) : A :=
  match c with EUR => Rates.EUR r | USD => Rates.USD r end.

(** The object [{ DZD: ..., [displayCurrency]: ... }]; [key] is the computed
    key, which is never ["DZD"]. *)
Module Total.
Record t (num : Type) : Type := {
    DZD : num;
    key : Currency;
    converted : num
  }.
End Total.

Module Part000.
Section Part000Screen.
Context {num : Type} `{Number num}.
Variable CURRENCIES : list CurrencyInfo.t.
Variable formatCurrency : num -> string -> string.

Local Open Scope num_scope.

  (** [l.length > 0 ? l.reduce((a, b) => a + b) / l.length : 0]; without an
      initial value [reduce] starts from the first element. *)
Definition average (l : list num) : num :=
    match l with
    | [] => nzero
    | a :: l' => fold_left (fun a b => a + b) l' a / ofLength (List.length l)
    end.

Definition collectRates (transactions : list (Transaction.t num))
      : Rates.t (list num) :=
    fold_left
      (fun rates transaction =>
         match Transaction.targetCurrency transaction with
         | EUR =>
             {| Rates.EUR := Rates.EUR rates ++ [Transaction.rate transaction];
                Rates.USD := Rates.USD rates |}
         | USD =>
             {| Rates.EUR := Rates.EUR rates;
                Rates.USD := Rates.USD rates ++ [Transaction.rate transaction] |}
         end)
      transactions
      {| Rates.EUR := []; Rates.USD := [] |}.

Definition averageRates (transactions : list (Transaction.t num)) : Rates.t num :=
    let rates := collectRates transactions in
    {| Rates.EUR := average (Rates.EUR rates);
       Rates.USD := average (Rates.USD rates) |}.

  (** The body of [transactions.forEach] in [balances]. *)
Definition accumulate (displayCurrency : Currency)
      (balanceMap : JsMap (Balance.t num)) (transaction : Transaction.t num)
      : JsMap (Balance.t num) :=
    if Currency_eqb (Transaction.targetCurrency transaction) displayCurrency then
      let key := Transaction.currencyCode transaction in
      let currentBalance :=
        match map_get key balanceMap with
        | Some b => b
        | None =>
            {| Balance.buys := nzero;
               Balance.sells := nzero;
               Balance.currency :=
                 find (fun c => String.eqb (CurrencyInfo.code c) key) CURRENCIES;
               Balance.targetCurrency := Transaction.targetCurrency transaction |}
        end in
      let currentBalance :=
        match Transaction.type transaction with
        | buy =>
            {| Balance.buys := Balance.buys currentBalance + Transaction.amount transaction;
               Balance.sells := Balance.sells currentBalance;
               Balance.currency := Balance.currency currentBalance;
               Balance.targetCurrency := Balance.targetCurrency currentBalance |}
        | sell =>
            {| Balance.buys := Balance.buys currentBalance;
               Balance.sells := Balance.sells currentBalance + Transaction.amount transaction;
               Balance.currency := Balance.currency currentBalance;
               Balance.targetCurrency := Balance.targetCurrency currentBalance |}
        end in
      map_set key currentBalance balanceMap
    else balanceMap.

  (** [transactions.find(t => ...)?.rate || 0] *)
Definition rateOf (transactions : list (Transaction.t num))
      (code : string) (target : Currency) : num :=
    match
      find (fun t => String.eqb (Transaction.currencyCode t) code
                     && Currency_eqb (Transaction.targetCurrency t) target)
           transactions
    with
    | Some t => orZero (Transaction.rate t)
    | None => nzero
    end.

Definition balances (transactions : list (Transaction.t num))
      (displayCurrency : Currency) : list (Row.t num) :=
    let balanceMap := fold_left (accumulate displayCurrency) transactions (map_new _) in
    map (fun '(code, data) =>
           {| Row.code := code;
              Row.buys := Balance.buys data;
              Row.sells := Balance.sells data;
              Row.currency := Balance.currency data;
              Row.targetCurrency := Balance.targetCurrency data;
              Row.netTotal :=
                (Balance.buys data - Balance.sells data)
                * rateOf transactions code (Balance.targetCurrency data) |})
        (map_entries balanceMap).

Definition totalNetBalance (transactions : list (Transaction.t num))
      (displayCurrency : Currency) : Total.t num :=
    let totalDZD :=
      fold_left
        (fun total transaction =>
           let amount :=
             match Transaction.type transaction with
             | buy => Transaction.amount transaction
             | sell => - Transaction.amount transaction
             end in
           total + amount * Transaction.rate transaction)
        transactions nzero in
    let rate :=
      match displayCurrency with
      | EUR => Rates.EUR (averageRates transactions)
      | USD => Rates.USD (averageRates transactions)
      end in
    {| Total.DZD := totalDZD;
       Total.key := displayCurrency;
       Total.converted := if truthy rate then totalDZD / rate else nzero |}.

Definition toggleDisplayCurrency (current : Currency) : Currency :=
    match current with USD => EUR | EUR => USD end.

Definition styleOf (value : num) : Style :=
    if value >? nzero then positive else negative.

Definition renderBalanceItem (displayCurrency : Currency) (item : Row.t num)
      : Outcome BalanceItem :=
    match Row.currency item with
    | None => Throws (TypeError "flagUrl")
    | Some currency =>
        Rendered
          {| flagUri := CurrencyInfo.flagUrl currency;
             currencyName := CurrencyInfo.name currency;
             currencyCodeText := Row.code item;
             totalBuys := formatCurrency (Row.buys item) (Currency_name displayCurrency);
             totalSells := formatCurrency (Row.sells item) (Currency_name displayCurrency);
             netTotalStyle := styleOf (Row.netTotal item);
             netTotalText :=
               formatCurrency (Row.buys item - Row.sells item)
                              (Currency_name displayCurrency) |}
    end.

  (** [totalNetBalance] and [averageRates] are read at [displayCurrency],
      the key they were computed for. *)
Definition BalanceScreen (transactions : list (Transaction.t num))
      (displayCurrency : Currency) : Outcome Screen :=
    if (0 <? List.length transactions)%nat then
      let total := totalNetBalance transactions displayCurrency in
      let card :=
        {| cardLabel := "Total Net Balance:";
           primaryValue :=
             {| valueStyle := styleOf (Total.DZD total);
                valueText := formatCurrency (Total.DZD total) "DZD" |};
           secondaryValue :=
             if ratesAt (averageRates transactions) displayCurrency >? nzero then
               Some {| valueStyle := styleOf (Total.converted total);
                       valueText := formatCurrency (Total.converted total)
                                                   (Currency_name displayCurrency) |}
             else None |} in
      let rows := balances transactions displayCurrency in
      if (0 <? List.length rows)%nat then
        bind (renderAll (renderBalanceItem displayCurrency) rows)
             (fun items =>
                Rendered (Summary (Currency_name displayCurrency) card (FlatList items)))
      else
        Rendered (Summary (Currency_name displayCurrency) card
                          (NoTransactionsIn displayCurrency))
    else
      Rendered (EmptyState "No transactions yet"
        "Your balance summary will appear here once you make transactions"
        "history").
End Part000Screen.
End Part000.

(** ** The state of the screen

    [transactions] is what [useTransactionHistory] returns, [displayCurrency]
    is the local state of the component; pressing the selector calls
    [toggleDisplayCurrency], which updates [displayCurrency] only. *)
Module State.
Record t (num : Type) : Type := {
    transactions : list (Transaction.t num);
    displayCurrency : Currency
  }.
End State.

Definition initialState {num} (transactions : list (Transaction.t num)) : State.t num :=
  {| State.transactions := transactions; State.displayCurrency := EUR |}.

Definition BalanceTsx_onPress {num} (s : State.t num) : State.t num :=
  {| State.transactions := State.transactions s;
     State.displayCurrency := BalanceTsx.toggleDisplayCurrency (State.displayCurrency s) |}.


(** What the screen shows in a state. *)
Definition BalanceTsx_render {num} `{Number num} (CURRENCIES : list CurrencyInfo.t)
    (formatCurrency : num -> string -> string) (s : State.t num) : Outcome Screen :=
  BalanceTsx.BalanceScreen CURRENCIES formatCurrency
    (State.transactions s) (State.displayCurrency s).


(** ** Vocabulary of the specification *)
Section Vocabulary.
Context {num : Type} `{Number num}.
Variable CURRENCIES : list CurrencyInfo.t.

Local Open Scope num_scope.

Definition keys {V} (m : JsMap V) : list string := map fst m.

  (** The transaction is recorded against the display currency. *)
Definition inCurrency (displayCurrency : Currency) (t : Transaction.t num) : bool :=
    Currency_eqb (Transaction.targetCurrency t) displayCurrency.

Definition hasCode (code : string) (t : Transaction.t num) : bool :=
    String.eqb (Transaction.currencyCode t) code.

Definition hasType (ty : TransactionType) (t : Transaction.t num) : bool :=
    match Transaction.type t, ty with
    | buy, buy | sell, sell => true
    | _, _ => false
    end.

  (** The distinct elements of a list, each at its first occurrence. *)
Fixpoint firstSeen (l : list string) : list string :=
    match l with
    | [] => []
    | c :: l' => c :: filter (fun c' => negb (String.eqb c c')) (firstSeen l')
    end.

  (** The source currency codes of the transactions in the display
      currency, in list order. *)
Definition codesIn (displayCurrency : Currency)
      (transactions : list (Transaction.t num)) : list string :=
    map (@Transaction.currencyCode num) (filter (inCurrency displayCurrency) transactions).

  (** [0 + a1 + ... + an], added from left to right. *)
Definition sum (l : list num) : num := fold_left nadd l nzero.

  (** The amounts of the transactions of a type for a code in the display
      currency, in list order. *)
Definition amountsOf (displayCurrency : Currency) (code : string)
      (ty : TransactionType) (transactions : list (Transaction.t num)) : list num :=
    map (@Transaction.amount num)
        (filter (fun t => inCurrency displayCurrency t && hasCode code t && hasType ty t)
                transactions).

  (** The first transaction of the list with that code and target currency. *)
Definition firstMatch (transactions : list (Transaction.t num))
      (code : string) (target : Currency) : option (Transaction.t num) :=
    find (fun t => hasCode code t && inCurrency target t) transactions.

  (** The amount, positive for a buy and negative for a sell. *)
Definition signedAmount (t : Transaction.t num) : num :=
    match Transaction.type t with
    | buy => Transaction.amount t
    | sell => - Transaction.amount t
    end.

  (** The data model's [rate > 0], for every transaction of a list. *)
Definition positiveRates (transactions : list (Transaction.t num)) : Prop :=
    Forall (fun t => (Transaction.rate t >? nzero) = true) transactions.

  (** The rates recorded against a currency, in list order. *)
Definition ratesIn (displayCurrency : Currency)
      (transactions : list (Transaction.t num)) : list num :=
    map (@Transaction.rate num) (filter (inCurrency displayCurrency) transactions).

  (** The arithmetic mean [(a1 + ... + an) / n] of a non-empty list. *)
Definition mean (a : num) (l : list num) : num :=
    fold_left nadd l a / ofLength (S (List.length l)).

  (** The sum over the rows of [buys - sells]. *)
Definition netOfRows (rows : list (Row.t num)) : num :=
    sum (map (fun r => Row.buys r - Row.sells r) rows).

  (** The signed sum of the amounts of the transactions in the display
      currency. *)
Definition netOfTransactions (displayCurrency : Currency)
      (transactions : list (Transaction.t num)) : num :=
    sum (map signedAmount (filter (inCurrency displayCurrency) transactions)).

  (** The object created for a code that is not yet in [balanceMap]. *)
Definition fresh (key : string) (target : Currency) : Balance.t num :=
    {| Balance.buys := nzero;
       Balance.sells := nzero;
       Balance.currency :=
         find (fun c => String.eqb (CurrencyInfo.code c) key) CURRENCIES;
       Balance.targetCurrency := target |}.

  (** [currentBalance.buys += amount] or [currentBalance.sells += amount]. *)
Definition bump (b : Balance.t num) (t : Transaction.t num) : Balance.t num :=
    match Transaction.type t with
    | buy =>
        {| Balance.buys := Balance.buys b + Transaction.amount t;
           Balance.sells := Balance.sells b;
           Balance.currency := Balance.currency b;
           Balance.targetCurrency := Balance.targetCurrency b |}
    | sell =>
        {| Balance.buys := Balance.buys b;
           Balance.sells := Balance.sells b + Transaction.amount t;
           Balance.currency := Balance.currency b;
           Balance.targetCurrency := Balance.targetCurrency b |}
    end.

  (** The transactions that reach the entry of a code. *)
Definition reaching (displayCurrency : Currency) (code : string)
      (transactions : list (Transaction.t num)) : list (Transaction.t num) :=
    filter (fun t => inCurrency displayCurrency t && hasCode code t) transactions.

  (** The entry of a code once the transactions are processed, from [b]. *)
Definition entryFrom (displayCurrency : Currency)
      (transactions : list (Transaction.t num)) (code : string) (b : Balance.t num)
      : Balance.t num :=
    fold_left bump (reaching displayCurrency code transactions) b.

  (** The row the screen builds from an entry of [balanceMap]. *)
Definition rowOf (transactions : list (Transaction.t num))
      (entry : string * Balance.t num) : Row.t num :=
    let '(code, data) := entry in
    {| Row.code := code;
       Row.buys := Balance.buys data;
       Row.sells := Balance.sells data;
       Row.currency := Balance.currency data;
       Row.targetCurrency := Balance.targetCurrency data;
       Row.netTotal :=
         (Balance.buys data - Balance.sells data)
         * BalanceTsx.rateOf transactions code (Balance.targetCurrency data) |}.

  (** What the balance aggregator returns for a list and a display currency:
    one row per distinct source currency code of the transactions in the
    display currency, in the order the codes are first seen; in each row,
    [buys] and [sells] are the sums of the amounts of the buys and of the
    sells for that code, and [netTotal] is [buys - sells] times the rate of
    the first transaction of the row's code and target currency. *)
Definition aggregated (displayCurrency : Currency)
    (transactions : list (Transaction.t num)) (rows : list (Row.t num)) : Prop :=
  NoDup (map (@Row.code num) rows)
  /\ (forall code, In code (map (@Row.code num) rows) <->
                   exists t, In t transactions
                             /\ Transaction.targetCurrency t = displayCurrency
                             /\ Transaction.currencyCode t = code)
  /\ map (@Row.code num) rows = firstSeen (codesIn displayCurrency transactions)
  /\ Forall
       (fun r =>
          Row.buys r = sum (amountsOf displayCurrency (Row.code r) buy transactions)
          /\ Row.sells r = sum (amountsOf displayCurrency (Row.code r) sell transactions)
          /\ Row.targetCurrency r = displayCurrency
          /\ exists t,
               firstMatch transactions (Row.code r) (Row.targetCurrency r) = Some t
               /\ Row.netTotal r = (Row.buys r - Row.sells r) * Transaction.rate t)
       rows.

(** The sum over all the transactions of the signed amount times the
    rate of the transaction. *)
Definition baseTotal (transactions : list (Transaction.t num)) : num :=
  sum (map (fun t => signedAmount t * Transaction.rate t) transactions).

(** The summary card of the first version with the figures of a card of
      the second: the label and the converted value are dropped. *)
Definition plainCard (c : TotalBalanceCard) : TotalBalanceCard :=
    {| cardLabel := "Total Net Balance (DZD):";
       primaryValue := primaryValue c;
       secondaryValue := None |}.

Definition plainScreen (s : Screen) : Screen :=
    match s with
    | EmptyState title description icon => EmptyState title description icon
    | Summary selector card area => Summary selector (plainCard card) area
    end.

Definition plainOutcome (o : Outcome Screen) : Outcome Screen :=
    match o with
    | Rendered s => Rendered (plainScreen s)
    | Throws e => Throws e
    end.
End Vocabulary.

(** ** Inputs of the examples *)

Definition transaction (code : string) (target : Currency) (ty : TransactionType)
    {num} (amount rate : num) : Transaction.t num :=
  {| Transaction.currencyCode := code;
     Transaction.targetCurrency := target;
     Transaction.type := ty;
     Transaction.amount := amount;
     Transaction.rate := rate |}.

(** A table with the two display currencies. *)
Definition sampleCurrencies : list CurrencyInfo.t :=
  [ {| CurrencyInfo.code := "USD"; CurrencyInfo.name := "US Dollar";
       CurrencyInfo.flagUrl := "usd.png" |};
    {| CurrencyInfo.code := "EUR"; CurrencyInfo.name := "Euro";
       CurrencyInfo.flagUrl := "eur.png" |} ].

(** A formatter that only names the currency. *)
Definition sampleFormat {num} (amount : num) (currencyCode : string) : string :=
  currencyCode.

(** [{currencyCode: "USD", targetCurrency: "EUR", type: "buy", amount: 100,
    rate: 0.9}] *)
Definition usdBuy : list (Transaction.t float) :=
  [transaction "USD" EUR buy 100%float 0.9%float].

(** Amounts around [2^53], where binary64 addition of [1] rounds. *)
Definition roundingList : list (Transaction.t float) :=
  [ transaction "USD" EUR buy 9007199254740992%float 1%float;
    transaction "USD" EUR buy 1%float 1%float;
    transaction "GBP" EUR buy 1%float 1%float;
    transaction "GBP" EUR buy 1%float 1%float ].

(** Transactions in both display currencies, on binary64 numbers. *)
Definition mixedList : list (Transaction.t float) :=
  [ transaction "USD" EUR buy 100%float 0.9%float;
    transaction "GBP" EUR sell 30%float 1.1%float;
    transaction "USD" USD buy 7%float 1%float;
    transaction "USD" EUR sell 20%float 0.8%float ].

(** A row whose net total is exactly zero. *)
Definition zeroRow : Row.t float :=
  {| Row.code := "USD";
     Row.buys := 5%float;
     Row.sells := 5%float;
     Row.currency := find (fun c => String.eqb (CurrencyInfo.code c) "USD") sampleCurrencies;
     Row.targetCurrency := EUR;
     Row.netTotal := 0%float |}.

(** A code that has no entry in [sampleCurrencies]. *)
Definition unknownCode : list (Transaction.t float) :=
  [transaction "XXX" EUR buy 1%float 1%float].

(** Transactions in USD only. *)
Definition usdOnly : list (Transaction.t float) :=
  [ transaction "EUR" USD buy 10%float 1.1%float;
    transaction "EUR" USD sell 4%float 1.2%float ].

(** ** The list of cards and the growth of the list *)

(** [keyExtractor={item => item.code}], the key [FlatList] gives a card. *)
Definition BalanceTsx_keyExtractor {num} (item : Row.t num) : string := Row.code item.

Definition Part000_keyExtractor {num} (item : Row.t num) : string := Row.code item.

(** The screen is rendered, with these cards in its list. *)
Definition showsCards (o : Outcome Screen) (items : list BalanceItem) : Prop :=
  exists selector card, o = Rendered (Summary selector card (FlatList items)).

(** The screen is rendered, with this summary card. *)
Definition showsCard (o : Outcome Screen) (card : TotalBalanceCard) : Prop :=
  exists selector area, o = Rendered (Summary selector card area).

Section Growth.
Context {num : Type} `{Number num}.
Variable CURRENCIES : list CurrencyInfo.t.

Local Open Scope num_scope.

(** The row of a code whose only transaction is [t]. *)
Definition firstRow (t : Transaction.t num) : Row.t num :=
  let data :=
    bump (fresh CURRENCIES (Transaction.currencyCode t) (Transaction.targetCurrency t)) t in
  {| Row.code := Transaction.currencyCode t;
     Row.buys := Balance.buys data;
     Row.sells := Balance.sells data;
     Row.currency := Balance.currency data;
     Row.targetCurrency := Balance.targetCurrency data;
     Row.netTotal :=
       (Balance.buys data - Balance.sells data) * orZero (Transaction.rate t) |}.

(** The row [r] once one more transaction [t] of its code is counted, the
    rate in use being [rate]. *)
Definition nextRow (rate : num) (r : Row.t num) (t : Transaction.t num) : Row.t num :=
  let buys :=
    match Transaction.type t with
    | buy => Row.buys r + Transaction.amount t
    | sell => Row.buys r
    end in
  let sells :=
    match Transaction.type t with
    | buy => Row.sells r
    | sell => Row.sells r + Transaction.amount t
    end in
  {| Row.code := Row.code r;
     Row.buys := buys;
     Row.sells := sells;
     Row.currency := Row.currency r;
     Row.targetCurrency := Row.targetCurrency r;
     Row.netTotal := (buys - sells) * rate |}.
End Growth.

Section CardVocabulary.
Context {num : Type} `{Number num}.
Variable CURRENCIES : list CurrencyInfo.t.
Variable formatCurrency : num -> string -> string.

Local Open Scope num_scope.

(** The card shows the entry of its code in the table and the sums of the
    buys and of the sells for its code; its net total is the difference of
    the sums as a text, and the difference times the rate in use as a
    colour. *)
Definition cardShowsSums (transactions : list (Transaction.t num))
    (displayCurrency : Currency) (item : BalanceItem) : Prop :=
  let code := currencyCodeText item in
  let buys := sum (amountsOf displayCurrency code buy transactions) in
  let sells := sum (amountsOf displayCurrency code sell transactions) in
  (exists entry,
     find (fun c => String.eqb (CurrencyInfo.code c) code) CURRENCIES = Some entry
     /\ flagUri item = CurrencyInfo.flagUrl entry
     /\ currencyName item = CurrencyInfo.name entry)
  /\ totalBuys item = formatCurrency buys (Currency_name displayCurrency)
  /\ totalSells item = formatCurrency sells (Currency_name displayCurrency)
  /\ netTotalText item = formatCurrency (buys - sells) (Currency_name displayCurrency)
  /\ netTotalStyle item
     = BalanceTsx.styleOf
         ((buys - sells) * BalanceTsx.rateOf transactions code displayCurrency).
End CardVocabulary.

Section ScreenVocabulary.
Context {num : Type} `{Number num}.
Variable CURRENCIES : list CurrencyInfo.t.
Variable formatCurrency : num -> string -> string.

Local Open Scope num_scope.

(** The card shows the net total of the row in the success style exactly
    when the net total is greater than zero, and in the error style
    otherwise; zero is shown in the error style. *)
Definition styledBySign (item : Row.t num) (card : BalanceItem) : Prop :=
  (netTotalStyle card = positive <-> (Row.netTotal item >? nzero) = true)
  /\ (netTotalStyle card = negative <-> (Row.netTotal item >? nzero) = false)
  /\ (Row.netTotal item = nzero -> netTotalStyle card = negative).


End ScreenVocabulary.

(** A table that also knows the pound. *)
Definition wideCurrencies : list CurrencyInfo.t :=
  sampleCurrencies
  ++ [ {| CurrencyInfo.code := "GBP"; CurrencyInfo.name := "British Pound";
          CurrencyInfo.flagUrl := "gbp.png" |} ].

(** A buy of francs and a sell of dollars in EUR, and a buy of pounds in USD. *)
Definition chfBuy : Transaction.t float := transaction "CHF" EUR buy 50%float 1.5%float.

Definition usdSell : Transaction.t float := transaction "USD" EUR sell 10%float 0.7%float.

Definition gbpInUsd : Transaction.t float := transaction "GBP" USD buy 3%float 1.3%float.

(** The cards the first version shows for [mixedList] in EUR with
    [wideCurrencies]. *)
Definition mixedCards : list BalanceItem :=
  match BalanceTsx.BalanceScreen wideCurrencies sampleFormat mixedList EUR with
  | Rendered (Summary _ _ (FlatList items)) => items
  | _ => []
  end.

(** * Properties *)

(** ** The insertion-ordered map *)
Section MapFacts.
Variable V : Type.
Implicit Types (m : JsMap V) (k : string) (v : V).

Lemma map_get_None_keys k m : map_get k m = None <-> ~ In k (keys m).
Proof.
    induction m as [|[k' v'] m IH]; simpl.
    - tauto.
    - destruct (String.eqb_spec k' k) as [->|Hne].
      + split; [discriminate | intros Hn; exfalso; apply Hn; now left].
      + rewrite IH. split.
        * intros Hn [Heq|Hin]; [now apply Hne | now apply Hn].
        * intros Hn Hin. apply Hn. now right.
Qed.

Lemma map_get_Some_keys k m v : map_get k m = Some v -> In k (keys m).
Proof.
    intros Hget. destruct (in_dec string_dec k (keys m)) as [Hin|Hn]; [exact Hin|].
    apply map_get_None_keys in Hn. congruence.
Qed.

Lemma map_set_absent k v m : map_get k m = None -> map_set k v m = m ++ [(k, v)].
Proof.
    induction m as [|[k' v'] m IH]; simpl; [reflexivity|].
    destruct (String.eqb k' k); [discriminate|].
    intros Hget. now rewrite IH.
Qed.

Lemma keys_map_set_present k v v0 m :
    map_get k m = Some v0 -> keys (map_set k v m) = keys m.
Proof.
    induction m as [|[k' v'] m IH]; simpl; [discriminate|].
    destruct (String.eqb k' k); simpl; [reflexivity|].
    intros Hget. now rewrite IH.
Qed.

  (** Mapping a key-dependent function over a map after a [set] on a
      present key: only the entry of that key sees the new value. *)
Lemma map_map_set_present {W} (f g : string -> V -> W) k v v0 m :
    NoDup (keys m) ->
    map_get k m = Some v0 ->
    f k v = g k v0 ->
    (forall k' v', k' <> k -> f k' v' = g k' v') ->
    map (fun e => (fst e, f (fst e) (snd e))) (map_set k v m)
    = map (fun e => (fst e, g (fst e) (snd e))) m.
Proof.
    intros Hnd Hget Hk Hother.
    induction m as [|[k' v'] m IH]; simpl in *; [discriminate|].
    inversion Hnd as [|? ? Hnotin Hnd']; subst.
    destruct (String.eqb_spec k' k) as [->|Hne]; simpl.
    - injection Hget as <-. rewrite Hk. f_equal.
      apply map_ext_in. intros [k1 v1] Hin. simpl.
      rewrite Hother; [reflexivity|].
      intros ->. apply Hnotin. apply (in_map fst) in Hin. exact Hin.
    - rewrite (Hother k' v' Hne). f_equal. now apply IH.
Qed.
End MapFacts.

(** ** Lists *)
Section ListFacts.
Lemma filter_all {A} (l : list A) : filter (fun _ => true) l = l.
Proof. induction l; simpl; congruence. Qed.

Lemma filter_twice {A} (f g : A -> bool) (l : list A) :
    filter f (filter g l) = filter (fun x => g x && f x) l.
Proof.
    induction l as [|a l IH]; simpl; [reflexivity|].
    destruct (g a); simpl; [destruct (f a)|]; now rewrite IH.
Qed.

Lemma In_firstSeen (c : string) (l : list string) : In c (firstSeen l) <-> In c l.
Proof.
    induction l as [|a l IH]; simpl; [tauto|].
    rewrite filter_In, IH.
    destruct (String.eqb_spec a c) as [->|Hne]; simpl; [tauto|].
    intuition congruence.
Qed.

Lemma NoDup_filter {A} (f : A -> bool) (l : list A) : NoDup l -> NoDup (filter f l).
Proof.
    induction 1 as [|a l Hn Hnd IH]; simpl; [constructor|].
    destruct (f a); [constructor|]; auto.
    intros Hin. apply filter_In in Hin. tauto.
Qed.

Lemma NoDup_firstSeen (l : list string) : NoDup (firstSeen l).
Proof.
    induction l as [|a l IH]; simpl; constructor.
    - rewrite filter_In. intros [_ Hne]. now rewrite String.eqb_refl in Hne.
    - now apply NoDup_filter.
Qed.

  (** Of two occurrences, [firstSeen] keeps the order of the first ones:
      it is the list itself when the list has no repetition. *)
Lemma firstSeen_NoDup (l : list string) : NoDup l -> firstSeen l = l.
Proof.
    induction 1 as [|a l Hn Hnd IH]; simpl; [reflexivity|].
    rewrite IH. f_equal.
    rewrite <- (filter_all l) at 2. apply filter_ext_in.
    intros c Hin. destruct (String.eqb_spec a c) as [->|]; [contradiction|reflexivity].
Qed.
End ListFacts.

(** ** The pass over the transactions *)
Section Aggregation.
Context {num : Type} `{Number num}.
Variable CURRENCIES : list CurrencyInfo.t.
Implicit Types (t : Transaction.t num) (l : list (Transaction.t num))
                 (m : JsMap (Balance.t num)) (b : Balance.t num)
                 (dc : Currency) (k : string).

Local Open Scope num_scope.

Lemma Currency_eqb_eq (a c : Currency) : Currency_eqb a c = true <-> a = c.
Proof. destruct a, c; simpl; split; congruence. Qed.

Lemma accumulate_unfold dc m t :
    BalanceTsx.accumulate CURRENCIES dc m t =
    if inCurrency dc t then
      map_set (Transaction.currencyCode t)
        (bump match map_get (Transaction.currencyCode t) m with
              | Some b => b
              | None => fresh CURRENCIES (Transaction.currencyCode t)
                              (Transaction.targetCurrency t)
              end t)
        m
    else m.
Proof. reflexivity. Qed.

Lemma entryFrom_cons_out dc t l k b :
    inCurrency dc t = false -> entryFrom dc (t :: l) k b = entryFrom dc l k b.
Proof. intros Hout. unfold entryFrom, reaching. simpl. now rewrite Hout. Qed.

Lemma entryFrom_cons_same dc t l b :
    inCurrency dc t = true ->
    entryFrom dc (t :: l) (Transaction.currencyCode t) b
    = entryFrom dc l (Transaction.currencyCode t) (bump b t).
Proof.
    intros Hin. unfold entryFrom, reaching, hasCode. simpl.
    now rewrite Hin, String.eqb_refl.
Qed.

Lemma entryFrom_cons_other dc t l k b :
    k <> Transaction.currencyCode t ->
    entryFrom dc (t :: l) k b = entryFrom dc l k b.
Proof.
    intros Hne. unfold entryFrom, reaching, hasCode. simpl.
    destruct (String.eqb_spec (Transaction.currencyCode t) k) as [Heq|_].
    - now elim Hne.
    - now rewrite andb_false_r.
Qed.

Lemma codesIn_cons_in dc t l :
    inCurrency dc t = true ->
    codesIn dc (t :: l) = Transaction.currencyCode t :: codesIn dc l.
Proof. intros Hin. unfold codesIn. simpl. now rewrite Hin. Qed.

Lemma codesIn_cons_out dc t l :
    inCurrency dc t = false -> codesIn dc (t :: l) = codesIn dc l.
Proof. intros Hout. unfold codesIn. simpl. now rewrite Hout. Qed.

Lemma existsb_eqb_In k (ks : list string) :
    existsb (String.eqb k) ks = true <-> In k ks.
Proof.
    rewrite existsb_exists. split.
    - intros [x [Hin Heq]]. apply String.eqb_eq in Heq. now subst.
    - intros Hin. exists k. split; [exact Hin | apply String.eqb_refl].
Qed.

  (** The map after the pass, from any map without repeated keys: the
      entries that were there stay in place and absorb the transactions of
      their code; the new codes follow, at their first occurrence. *)
Lemma fold_accumulate dc l : forall m,
    NoDup (keys m) ->
    fold_left (BalanceTsx.accumulate CURRENCIES dc) l m
    = map (fun e => (fst e, entryFrom dc l (fst e) (snd e))) m
      ++ map (fun k => (k, entryFrom dc l k (fresh CURRENCIES k dc)))
             (filter (fun k => negb (existsb (String.eqb k) (keys m)))
                     (firstSeen (codesIn dc l))).
Proof.
    induction l as [|t l IH]; intros m Hnd.
    - simpl. rewrite app_nil_r. rewrite <- (map_id m) at 1.
      apply map_ext. now intros [k b].
    - simpl fold_left. rewrite accumulate_unfold.
      destruct (inCurrency dc t) eqn:Hin.
      + assert (Htarget : Transaction.targetCurrency t = dc)
          by now apply Currency_eqb_eq.
        set (key := Transaction.currencyCode t).
        destruct (map_get key m) as [b|] eqn:Hget.
        * assert (Hkey : In key (keys m)) by now apply map_get_Some_keys in Hget.
          rewrite IH by now erewrite keys_map_set_present by exact Hget.
          erewrite keys_map_set_present by exact Hget.
          rewrite codesIn_cons_in by exact Hin. fold key. simpl firstSeen. simpl filter.
          apply existsb_eqb_In in Hkey. rewrite Hkey. simpl.
          f_equal.
          -- apply (@map_map_set_present _ _
                      (fun k v => entryFrom dc l k v)
                      (fun k v => entryFrom dc (t :: l) k v) key _ b m Hnd Hget).
             ++ unfold key. now rewrite entryFrom_cons_same.
             ++ intros k' v' Hne. now rewrite entryFrom_cons_other.
          -- rewrite filter_twice.
             rewrite (filter_ext_in
               (fun x => negb (String.eqb key x) && negb (existsb (String.eqb x) (keys m)))
               (fun x => negb (existsb (String.eqb x) (keys m)))).
             ++ apply map_ext_in. intros k Hk. apply filter_In in Hk.
                destruct Hk as [_ Hk]. rewrite entryFrom_cons_other; [reflexivity|].
                intros ->. fold key in Hk. now rewrite Hkey in Hk.
             ++ intros k _. destruct (String.eqb_spec key k) as [<-|_]; simpl;
                  [now rewrite Hkey | reflexivity].
        * assert (Hkey : ~ In key (keys m)) by now apply map_get_None_keys.
          rewrite map_set_absent by exact Hget.
          assert (Hkeys : keys (m ++ [(key, bump (fresh CURRENCIES key
                             (Transaction.targetCurrency t)) t)]) = keys m ++ [key])
            by (unfold keys; now rewrite map_app).
          rewrite IH.
          2:{ rewrite Hkeys. apply NoDup_app; [exact Hnd | repeat constructor; auto |].
              intros x Hx [<-|[]]. contradiction. }
          rewrite Hkeys, map_app, <- app_assoc. simpl map at 2.
          rewrite codesIn_cons_in by exact Hin. fold key. simpl firstSeen. simpl filter.
          assert (Hnk : existsb (String.eqb key) (keys m) = false).
          { destruct (existsb (String.eqb key) (keys m)) eqn:E; [|reflexivity].
            apply existsb_eqb_In in E. contradiction. }
          rewrite Hnk. simpl.
          f_equal; [|f_equal].
          -- apply map_ext_in. intros [k b] Hk. simpl.
             rewrite entryFrom_cons_other; [reflexivity|].
             intros ->. apply Hkey. apply (in_map fst) in Hk. exact Hk.
          -- unfold key. rewrite entryFrom_cons_same by exact Hin.
             now rewrite Htarget.
          -- rewrite filter_twice.
             rewrite (filter_ext
               (fun x => negb (existsb (String.eqb x) (keys m ++ [key])))
               (fun x => negb (String.eqb key x) && negb (existsb (String.eqb x) (keys m)))).
             ++ apply map_ext_in. intros k Hk. apply filter_In in Hk.
                destruct Hk as [_ Hk]. rewrite entryFrom_cons_other; [reflexivity|].
                intros ->. fold key in Hk. now rewrite String.eqb_refl in Hk.
             ++ intros k. rewrite existsb_app. simpl. rewrite orb_false_r.
                rewrite (String.eqb_sym k key).
                now destruct (existsb (String.eqb k) (keys m)), (String.eqb key k).
      + rewrite IH by exact Hnd. rewrite codesIn_cons_out by exact Hin.
        f_equal; apply map_ext; intros; now rewrite entryFrom_cons_out.
Qed.

  (** The map the screen builds, in closed form. *)
Lemma balanceMap_closed dc l :
    fold_left (BalanceTsx.accumulate CURRENCIES dc) l (map_new _)
    = map (fun k => (k, entryFrom dc l k (fresh CURRENCIES k dc)))
          (firstSeen (codesIn dc l)).
Proof.
    unfold map_new. rewrite fold_accumulate by constructor.
    simpl. now rewrite filter_all.
Qed.
End Aggregation.

(** ** The rows *)
Section Rows.
Context {num : Type} `{Number num}.
Variable CURRENCIES : list CurrencyInfo.t.
Implicit Types (t : Transaction.t num) (l : list (Transaction.t num))
               (b : Balance.t num) (dc : Currency) (k : string).

Local Open Scope num_scope.

Lemma fold_bump_buys l : forall b,
  Balance.buys (fold_left bump l b)
  = fold_left nadd (map (@Transaction.amount num) (filter (hasType buy) l)) (Balance.buys b).
Proof.
  induction l as [|t l IH]; intros b; [reflexivity|].
  simpl. rewrite IH. unfold bump, hasType.
  destruct (Transaction.type t); reflexivity.
Qed.

Lemma fold_bump_sells l : forall b,
  Balance.sells (fold_left bump l b)
  = fold_left nadd (map (@Transaction.amount num) (filter (hasType sell) l)) (Balance.sells b).
Proof.
  induction l as [|t l IH]; intros b; [reflexivity|].
  simpl. rewrite IH. unfold bump, hasType.
  destruct (Transaction.type t); reflexivity.
Qed.

Lemma fold_bump_currency l : forall b,
  Balance.currency (fold_left bump l b) = Balance.currency b.
Proof.
  induction l as [|t l IH]; intros b; [reflexivity|].
  simpl. rewrite IH. unfold bump. destruct (Transaction.type t); reflexivity.
Qed.

Lemma fold_bump_target l : forall b,
  Balance.targetCurrency (fold_left bump l b) = Balance.targetCurrency b.
Proof.
  induction l as [|t l IH]; intros b; [reflexivity|].
  simpl. rewrite IH. unfold bump. destruct (Transaction.type t); reflexivity.
Qed.

Lemma entry_buys dc l k :
  Balance.buys (entryFrom dc l k (fresh CURRENCIES k dc)) = sum (amountsOf dc k buy l).
Proof.
  unfold entryFrom, reaching, amountsOf, sum.
  now rewrite fold_bump_buys, filter_twice.
Qed.

Lemma entry_sells dc l k :
  Balance.sells (entryFrom dc l k (fresh CURRENCIES k dc)) = sum (amountsOf dc k sell l).
Proof.
  unfold entryFrom, reaching, amountsOf, sum.
  now rewrite fold_bump_sells, filter_twice.
Qed.

Lemma entry_target dc l k :
  Balance.targetCurrency (entryFrom dc l k (fresh CURRENCIES k dc)) = dc.
Proof. unfold entryFrom. now rewrite fold_bump_target. Qed.

Lemma entry_currency dc l k :
  Balance.currency (entryFrom dc l k (fresh CURRENCIES k dc))
  = find (fun c => String.eqb (CurrencyInfo.code c) k) CURRENCIES.
Proof. unfold entryFrom. now rewrite fold_bump_currency. Qed.

(** The rows of the first version, in closed form. *)
Lemma balances_closed l dc :
  BalanceTsx.balances CURRENCIES l dc
  = map (fun k => rowOf l (k, entryFrom dc l k (fresh CURRENCIES k dc)))
        (firstSeen (codesIn dc l)).
Proof.
  unfold BalanceTsx.balances, map_entries.
  rewrite balanceMap_closed, map_map. reflexivity.
Qed.

(** The two versions build the same rows. *)
Lemma Part000_balances_eq l dc :
  Part000.balances CURRENCIES l dc = BalanceTsx.balances CURRENCIES l dc.
Proof. reflexivity. Qed.

Lemma In_codesIn dc l k :
  In k (codesIn dc l) <->
  exists t, In t l /\ Transaction.targetCurrency t = dc /\ Transaction.currencyCode t = k.
Proof.
  unfold codesIn. rewrite in_map_iff. split.
  - intros [t [Hk Ht]]. apply filter_In in Ht. destruct Ht as [Ht Hin].
    exists t. repeat split; auto. now apply Currency_eqb_eq.
  - intros [t [Ht [Htarget Hk]]]. exists t. split; [exact Hk|].
    apply filter_In. split; [exact Ht|]. now apply Currency_eqb_eq.
Qed.

(** A code that occurs in the display currency has a first transaction. *)
Lemma firstMatch_defined dc l k :
  In k (codesIn dc l) ->
  exists t, firstMatch l k dc = Some t /\ In t l.
Proof.
  intros Hk. apply In_codesIn in Hk. destruct Hk as [t0 [Ht0 [Htarget Hcode]]].
  unfold firstMatch.
  destruct (find (fun t => hasCode k t && inCurrency dc t) l) as [t|] eqn:Hfind.
  - exists t. split; [reflexivity|]. now apply find_some in Hfind.
  - apply find_none with (x := t0) in Hfind; [|exact Ht0].
    unfold hasCode, inCurrency in Hfind.
    rewrite Hcode, String.eqb_refl in Hfind.
    apply Currency_eqb_eq in Htarget. now rewrite Htarget in Hfind.
Qed.

Lemma rateOf_firstMatch l k dc t :
  firstMatch l k dc = Some t ->
  BalanceTsx.rateOf l k dc = orZero (Transaction.rate t).
Proof.
  unfold firstMatch, BalanceTsx.rateOf, hasCode, inCurrency. now intros ->.
Qed.

Lemma orZero_positive {L : @PositiveLaws num _} (a : num) :
  (a >? nzero) = true -> orZero a = a.
Proof. intros Hpos. unfold orZero. now rewrite positive_truthy. Qed.

(** The rows of the first version are the aggregation of the list. *)
Lemma balances_aggregated {L : @PositiveLaws num _} l dc :
  positiveRates l -> aggregated dc l (BalanceTsx.balances CURRENCIES l dc).
Proof.
  intros Hrates. rewrite balances_closed.
  assert (Hcodes :
    map (@Row.code num)
        (map (fun k => rowOf l (k, entryFrom dc l k (fresh CURRENCIES k dc)))
             (firstSeen (codesIn dc l)))
    = firstSeen (codesIn dc l)).
  { rewrite map_map. simpl. apply map_id. }
  unfold aggregated. rewrite Hcodes. repeat split.
  - apply NoDup_firstSeen.
  - intros Hin. apply (proj1 (In_codesIn dc l code)).
    exact (proj1 (In_firstSeen code (codesIn dc l)) Hin).
  - intros Hex. apply (proj2 (In_firstSeen code (codesIn dc l))).
    exact (proj2 (In_codesIn dc l code) Hex).
  - apply Forall_forall. intros r Hr. apply in_map_iff in Hr.
    destruct Hr as [k [<- Hk]].
    apply (proj1 (In_firstSeen k (codesIn dc l))) in Hk. simpl.
    rewrite entry_buys, entry_sells, entry_target. repeat split.
    destruct (firstMatch_defined _ _ _ Hk) as [t [Hfirst Ht]].
    exists t. split; [exact Hfirst|].
    rewrite (rateOf_firstMatch _ _ _ Hfirst), orZero_positive; [reflexivity|].
    unfold positiveRates in Hrates. rewrite Forall_forall in Hrates. now apply Hrates.
Qed.
End Rows.

(** ** The number instances *)

Lemma SFcompare_refl_finite (s : bool) (m : BinNums.positive) (e : Z) :
  SFcompare (S754_finite s m e) (S754_finite s m e) = Some Eq.
Proof.
  simpl. destruct s; rewrite Z.compare_refl; rewrite Pos.compare_cont_refl; reflexivity.
Qed.

#[export] Instance float_PositiveLaws : @PositiveLaws float float_Number.
Proof.
  split.
  - reflexivity.
  - reflexivity.
  - intros a. simpl. unfold is_nan.
    rewrite FloatAxioms.ltb_spec, !FloatAxioms.eqb_spec.
    change (Prim2SF 0%float) with (S754_zero false).
    destruct (Prim2SF a) as [s| [|] | |[|] m e] eqn:Ha; simpl; try discriminate;
      intros _; try reflexivity.
    unfold SFeqb. rewrite SFcompare_refl_finite.
    unfold SFcompare. reflexivity.
Qed.

(** ** C1: the balance aggregator *)

(** C1.  In both versions, for every list of transactions with positive
    rates and every display currency, the aggregator returns exactly one row
    per distinct source currency code of the transactions whose target
    currency is the display currency, in the order the codes are first
    seen; the [buys] and [sells] of a row are the sums of the amounts of the
    buys and of the sells for that code, and [netTotal] is [buys - sells]
    times the rate of the first transaction of the list with the row's code
    and target currency. *)
Theorem balances_aggregate_per_code :
  forall (num : Type) (N : Number num) (L : @PositiveLaws num N)
         (CURRENCIES : list CurrencyInfo.t)
         (transactions : list (Transaction.t num)) (displayCurrency : Currency),
    positiveRates transactions ->
    aggregated displayCurrency transactions
      (BalanceTsx.balances CURRENCIES transactions displayCurrency)
    /\ aggregated displayCurrency transactions
         (Part000.balances CURRENCIES transactions displayCurrency).
Proof.
  intros num N L CURRENCIES transactions displayCurrency Hrates.
  split.
  - now apply balances_aggregated.
  - exact (balances_aggregated CURRENCIES displayCurrency Hrates).
Qed.

Lemma balances_aggregate_per_code_witness :
  positiveRates mixedList
  /\ aggregated EUR mixedList (BalanceTsx.balances sampleCurrencies mixedList EUR)
  /\ aggregated EUR mixedList (Part000.balances sampleCurrencies mixedList EUR).
Proof.
  assert (Hrates : positiveRates mixedList) by (repeat constructor).
  split; [exact Hrates|].
  exact (@balances_aggregate_per_code float float_Number float_PositiveLaws
           sampleCurrencies mixedList EUR Hrates).
Defined.

(** On [mixedList] in EUR: USD comes first and GBP second; the buy of USD in
    USD is left out; the net total of USD uses the rate [0.9] of the first
    transaction, not the rate [0.8] of the later sell. *)
Example balances_mixedList :
  map (fun r => (Row.code r, Row.buys r, Row.sells r, Row.netTotal r))
      (BalanceTsx.balances sampleCurrencies mixedList EUR)
  = [ ("USD", 100%float, 20%float, 72%float);
      ("GBP", 0%float, 30%float, (-33)%float) ].
Proof. reflexivity. Qed.

(** ** C2: the total in the base currency *)
Section BaseTotal.
Context {num : Type} `{Number num}.
Implicit Types (l : list (Transaction.t num)) (dc : Currency).

Local Open Scope num_scope.

Lemma fold_left_mapped {A} (g : A -> num) (l : list A) : forall a,
  fold_left (fun acc x => acc + g x) l a = fold_left nadd (map g l) a.
Proof. induction l as [|x l IH]; intros a; [reflexivity | apply IH]. Qed.

Lemma totalNetBalanceDZD_baseTotal l :
  BalanceTsx.totalNetBalanceDZD l = baseTotal l.
Proof.
  unfold BalanceTsx.totalNetBalanceDZD, baseTotal, sum.
  now rewrite <- fold_left_mapped.
Qed.

Lemma totalNetBalance_DZD l dc :
  Total.DZD (Part000.totalNetBalance l dc) = BalanceTsx.totalNetBalanceDZD l.
Proof. reflexivity. Qed.
End BaseTotal.

(** C2.  For every list of transactions, the total net balance in the base
    currency is the sum over all the transactions of the list, whatever
    their target currency, of amount times rate, the amount counted
    positive for a buy and negative for a sell; in the version that takes
    the display currency, the total does not depend on it. *)
Theorem base_total_sums_all_transactions :
  forall (num : Type) (N : Number num) (transactions : list (Transaction.t num)),
    BalanceTsx.totalNetBalanceDZD transactions
    = sum (map (fun t => (signedAmount t * Transaction.rate t)%num) transactions)
    /\ (forall displayCurrency,
          Total.DZD (Part000.totalNetBalance transactions displayCurrency)
          = sum (map (fun t => (signedAmount t * Transaction.rate t)%num) transactions))
    /\ (forall displayCurrency displayCurrency',
          Total.DZD (Part000.totalNetBalance transactions displayCurrency)
          = Total.DZD (Part000.totalNetBalance transactions displayCurrency')).
Proof.
  intros num N transactions. split; [|split].
  - apply totalNetBalanceDZD_baseTotal.
  - intros displayCurrency. rewrite totalNetBalance_DZD.
    apply totalNetBalanceDZD_baseTotal.
  - intros displayCurrency displayCurrency'. now rewrite !totalNetBalance_DZD.
Qed.

(** ** C3: what the rows add up to *)
Section OtherCurrencies.
Context {num : Type} `{Number num}.
Variable CURRENCIES : list CurrencyInfo.t.
Implicit Types (t : Transaction.t num) (l : list (Transaction.t num))
               (b : Balance.t num) (dc : Currency) (k : string).

Lemma find_filter {A} (f g : A -> bool) (xs : list A) :
  (forall x, f x = true -> g x = true) ->
  find f (filter g xs) = find f xs.
Proof.
  intros Hfg. induction xs as [|x xs IH]; simpl; [reflexivity|].
  destruct (f x) eqn:Hf.
  - rewrite (Hfg x Hf). simpl. now rewrite Hf.
  - destruct (g x); simpl; [rewrite Hf|]; exact IH.
Qed.

Lemma codesIn_filter dc l : codesIn dc (filter (inCurrency dc) l) = codesIn dc l.
Proof.
  unfold codesIn. rewrite filter_twice. f_equal.
  apply filter_ext. intros t. now destruct (inCurrency dc t).
Qed.

Lemma entryFrom_filter dc l k b :
  entryFrom dc (filter (inCurrency dc) l) k b = entryFrom dc l k b.
Proof.
  unfold entryFrom, reaching. rewrite filter_twice. f_equal.
  apply filter_ext. intros t. now destruct (inCurrency dc t).
Qed.

Lemma rateOf_filter dc l k :
  BalanceTsx.rateOf (filter (inCurrency dc) l) k dc = BalanceTsx.rateOf l k dc.
Proof.
  unfold BalanceTsx.rateOf. rewrite find_filter; [reflexivity|].
  intros t Ht. apply andb_prop in Ht. exact (proj2 Ht).
Qed.

(** The transactions in another currency reach no row. *)
Lemma balances_filter l dc :
  BalanceTsx.balances CURRENCIES (filter (inCurrency dc) l) dc
  = BalanceTsx.balances CURRENCIES l dc.
Proof.
  rewrite !balances_closed, codesIn_filter.
  apply map_ext. intros k. unfold rowOf.
  now rewrite entryFrom_filter, !entry_target, rateOf_filter.
Qed.
End OtherCurrencies.


(** C3, as stated, fails on binary64 numbers.  With two buys of USD for
    [2^53] and [1] and two buys of GBP for [1] and [1], all in EUR, the row
    of USD holds [2^53], since [2^53 + 1] rounds to [2^53], and the row of
    GBP holds [2]: the rows add up to [2^53 + 2].  The signed amounts of
    the four transactions, added in list order, give [2^53]. *)
Lemma rows_do_not_add_up_on_binary64 :
  netOfRows (BalanceTsx.balances sampleCurrencies roundingList EUR)
    = 9007199254740994%float
  /\ netOfRows (Part000.balances sampleCurrencies roundingList EUR)
    = 9007199254740994%float
  /\ netOfTransactions EUR roundingList = 9007199254740992%float
  /\ netOfRows (BalanceTsx.balances sampleCurrencies roundingList EUR)
     <> netOfTransactions EUR roundingList.
Proof.
  assert (Hrows : netOfRows (BalanceTsx.balances sampleCurrencies roundingList EUR)
                  = 9007199254740994%float) by (vm_compute; reflexivity).
  assert (Hlist : netOfTransactions EUR roundingList = 9007199254740992%float)
    by (vm_compute; reflexivity).
  repeat split; try assumption.
  rewrite Hrows, Hlist. intros Heq.
  apply (f_equal (fun x => PrimFloat.eqb x 9007199254740992%float)) in Heq.
  vm_compute in Heq. discriminate.
Qed.

(** The transactions of a list, grouped by key in the order the keys are
    first seen, are the transactions of the list. *)
Section Partition.
Context {A : Type}.
Variable key : A -> string.

Lemma filter_key_absent (k : string) (xs : list A) :
  ~ In k (map key xs) -> filter (fun x => String.eqb (key x) k) xs = [].
Proof.
  intros Hk. induction xs as [|x xs IH]; simpl; [reflexivity|].
  destruct (String.eqb_spec (key x) k) as [Heq|_].
  - elim Hk. left. exact Heq.
  - apply IH. intros Hin. apply Hk. now right.
Qed.

Lemma concat_split_key (F : string -> list A) (k : string) (ks : list string) :
  NoDup ks ->
  (~ In k ks -> F k = []) ->
  Permutation
    (F k ++ List.concat (map F (filter (fun c => negb (String.eqb k c)) ks)))
    (List.concat (map F ks)).
Proof.
  induction 1 as [|c ks Hc Hnd IH]; intros Habsent; simpl.
  - rewrite Habsent by tauto. constructor.
  - destruct (String.eqb_spec k c) as [<-|Hne]; simpl.
    + rewrite (filter_ext_in (fun c => negb (String.eqb k c)) (fun _ => true)).
      * now rewrite filter_all.
      * intros c Hin. destruct (String.eqb_spec k c) as [<-|_]; [contradiction|reflexivity].
    + rewrite Permutation_app_swap_app. apply Permutation_app_head.
      apply IH. intros Hk. apply Habsent. intros [Heq|Hin]; [now elim Hne | contradiction].
Qed.

Lemma grouped_by_key (xs : list A) :
  Permutation
    (List.concat (map (fun k => filter (fun x => String.eqb (key x) k) xs)
                 (firstSeen (map key xs))))
    xs.
Proof.
  induction xs as [|x xs IH]; simpl; [constructor|].
  rewrite String.eqb_refl. simpl. constructor.
  rewrite (map_ext_in
             (fun k => filter (fun x0 => String.eqb (key x0) k) (x :: xs))
             (fun k => filter (fun x0 => String.eqb (key x0) k) xs)).
  - apply Permutation_trans with (2 := IH).
    apply (@concat_split_key (fun k => filter (fun x0 => String.eqb (key x0) k) xs)
             (key x) (firstSeen (map key xs)) (NoDup_firstSeen (map key xs))).
    intros Hk. apply filter_key_absent. intros Hin. apply Hk.
    exact (proj2 (In_firstSeen (key x) (map key xs)) Hin).
  - intros k Hk. apply filter_In in Hk. destruct Hk as [_ Hne]. simpl.
    destruct (String.eqb_spec (key x) k) as [Heq|_]; [discriminate | reflexivity].
Qed.
End Partition.

Section Counted.
Context {num : Type} `{Number num}.
Variable CURRENCIES : list CurrencyInfo.t.
Implicit Types (l : list (Transaction.t num)) (dc : Currency) (k : string).

Lemma reaching_filter dc l k :
  filter (fun t => String.eqb (Transaction.currencyCode t) k) (filter (inCurrency dc) l)
  = reaching dc k l.
Proof. unfold reaching, hasCode. apply filter_twice. Qed.

(** The transactions the rows count, row after row, are the transactions
    in the display currency. *)
Lemma rows_count_each_once l dc :
  Permutation
    (List.concat (map (fun r => reaching dc (Row.code r) l)
                 (BalanceTsx.balances CURRENCIES l dc)))
    (filter (inCurrency dc) l).
Proof.
  rewrite balances_closed, map_map.
  rewrite (map_ext _ (fun k => filter (fun t => String.eqb (Transaction.currencyCode t) k)
                                      (filter (inCurrency dc) l)))
    by (intros k; symmetry; apply reaching_filter).
  apply (grouped_by_key (@Transaction.currencyCode num)).
Qed.

Lemma rows_sum_what_they_count l dc :
  Forall
    (fun r =>
       Row.buys r
       = sum (map (@Transaction.amount num)
                  (filter (hasType buy) (reaching dc (Row.code r) l)))
       /\ Row.sells r
          = sum (map (@Transaction.amount num)
                     (filter (hasType sell) (reaching dc (Row.code r) l))))
    (BalanceTsx.balances CURRENCIES l dc).
Proof.
  rewrite balances_closed. apply Forall_forall. intros r Hr.
  apply in_map_iff in Hr. destruct Hr as [k [<- _]]. simpl.
  unfold entryFrom, sum. now rewrite fold_bump_buys, fold_bump_sells.
Qed.
End Counted.

(** C3, amended.  In both versions, for every list of transactions and
    display currency: the transactions with another target currency reach
    no row, the rows of the list being the rows of its transactions in the
    display currency; every transaction in the display currency is counted
    in exactly one row, the transactions counted by the rows, row after
    row, being a permutation of the transactions in the display currency;
    the [buys] and the [sells] of a row are the sums, from left to right, of
    the amounts of the buys and of the sells it counts; and every
    transaction of the list is a term of the total in the base currency,
    whatever the display currency.  All of it holds of binary64 numbers. *)
Theorem rows_count_display_currency_only :
  forall (num : Type) (N : Number num) (CURRENCIES : list CurrencyInfo.t)
         (transactions : list (Transaction.t num)) (displayCurrency : Currency),
    (BalanceTsx.balances CURRENCIES (filter (inCurrency displayCurrency) transactions)
                         displayCurrency
     = BalanceTsx.balances CURRENCIES transactions displayCurrency
     /\ Part000.balances CURRENCIES (filter (inCurrency displayCurrency) transactions)
                         displayCurrency
        = Part000.balances CURRENCIES transactions displayCurrency)
    /\ (Permutation
          (List.concat (map (fun r => reaching displayCurrency (Row.code r) transactions)
                       (BalanceTsx.balances CURRENCIES transactions displayCurrency)))
          (filter (inCurrency displayCurrency) transactions)
        /\ Permutation
             (List.concat (map (fun r => reaching displayCurrency (Row.code r) transactions)
                          (Part000.balances CURRENCIES transactions displayCurrency)))
             (filter (inCurrency displayCurrency) transactions))
    /\ (Forall
          (fun r =>
             Row.buys r
             = sum (map (@Transaction.amount num)
                        (filter (hasType buy)
                                (reaching displayCurrency (Row.code r) transactions)))
             /\ Row.sells r
                = sum (map (@Transaction.amount num)
                           (filter (hasType sell)
                                   (reaching displayCurrency (Row.code r) transactions))))
          (BalanceTsx.balances CURRENCIES transactions displayCurrency)
        /\ Forall
             (fun r =>
                Row.buys r
                = sum (map (@Transaction.amount num)
                           (filter (hasType buy)
                                   (reaching displayCurrency (Row.code r) transactions)))
                /\ Row.sells r
                   = sum (map (@Transaction.amount num)
                              (filter (hasType sell)
                                      (reaching displayCurrency (Row.code r) transactions))))
             (Part000.balances CURRENCIES transactions displayCurrency))
    /\ (BalanceTsx.totalNetBalanceDZD transactions
        = sum (map (fun t => (signedAmount t * Transaction.rate t)%num) transactions)
        /\ Total.DZD (Part000.totalNetBalance transactions displayCurrency)
           = sum (map (fun t => (signedAmount t * Transaction.rate t)%num) transactions)).
Proof.
  intros num N CURRENCIES transactions displayCurrency.
  split; [split; [apply balances_filter
                 | exact (balances_filter CURRENCIES transactions displayCurrency)]|].
  split; [split; [apply rows_count_each_once
                 | exact (rows_count_each_once CURRENCIES transactions displayCurrency)]|].
  split; [split; [apply rows_sum_what_they_count
                 | exact (rows_sum_what_they_count CURRENCIES transactions
                            displayCurrency)]|].
  split; [apply totalNetBalanceDZD_baseTotal|].
  rewrite totalNetBalance_DZD. apply totalNetBalanceDZD_baseTotal.
Qed.

(** On [roundingList], where the sums of C3 differ, the rows count the two
    transactions of USD and then the two of GBP. *)
Example roundingList_counted :
  map (fun r => (Row.code r, map (@Transaction.amount float)
                               (reaching EUR (Row.code r) roundingList)))
      (BalanceTsx.balances sampleCurrencies roundingList EUR)
  = [ ("USD", [9007199254740992; 1]%float); ("GBP", [1; 1]%float) ].
Proof. reflexivity. Qed.

(** ** C4: the total in the display currency *)
Section Conversion.
Context {num : Type} `{Number num}.
Implicit Types (t : Transaction.t num) (l : list (Transaction.t num)) (dc : Currency).

Local Open Scope num_scope.

Lemma collectRates_from l : forall acc : Rates.t (list num),
  let rates :=
    fold_left
      (fun rates transaction =>
         match Transaction.targetCurrency transaction with
         | EUR =>
             {| Rates.EUR := Rates.EUR rates ++ [Transaction.rate transaction];
                Rates.USD := Rates.USD rates |}
         | USD =>
             {| Rates.EUR := Rates.EUR rates;
                Rates.USD := Rates.USD rates ++ [Transaction.rate transaction] |}
         end)
      l acc in
  Rates.EUR rates = Rates.EUR acc ++ ratesIn EUR l
  /\ Rates.USD rates = Rates.USD acc ++ ratesIn USD l.
Proof.
  induction l as [|t l IH]; intros acc; simpl.
  - unfold ratesIn. simpl. now rewrite !app_nil_r.
  - unfold ratesIn, inCurrency. simpl filter.
    destruct (Transaction.targetCurrency t) eqn:Ht; simpl Currency_eqb; cbv iota;
      match goal with
      | |- context [fold_left _ l ?acc'] => destruct (IH acc') as [HE HU]
      end;
      rewrite HE, HU; simpl; now rewrite <- ?app_assoc.
Qed.

(** The rates collected for a currency are the rates of the transactions
    recorded against it, in list order. *)
Lemma collectRates_ratesIn l dc :
  ratesAt (Part000.collectRates l) dc = ratesIn dc l.
Proof.
  destruct (collectRates_from l {| Rates.EUR := []; Rates.USD := [] |}) as [HE HU].
  unfold Part000.collectRates. destruct dc; simpl; [exact HU | exact HE].
Qed.

Lemma averageRates_ratesIn l dc :
  ratesAt (Part000.averageRates l) dc = Part000.average (ratesIn dc l).
Proof.
  rewrite <- collectRates_ratesIn. now destruct dc.
Qed.

Lemma converted_unfold l dc :
  Total.converted (Part000.totalNetBalance l dc)
  = if truthy (ratesAt (Part000.averageRates l) dc)
    then Total.DZD (Part000.totalNetBalance l dc) / ratesAt (Part000.averageRates l) dc
    else nzero.
Proof. now destruct dc. Qed.
End Conversion.

(** C4.  In the version that converts the total, for every list of
    transactions and display currency: when no transaction has the display
    currency as its target, the converted total is zero; otherwise, the
    mean of the rates of those transactions being a number other than zero,
    the converted total is the total in the base currency divided by that
    mean. *)
Theorem converted_total_divides_by_mean_rate :
  forall (num : Type) (N : Number num) (L : @PositiveLaws num N)
         (transactions : list (Transaction.t num)) (displayCurrency : Currency),
    (ratesIn displayCurrency transactions = [] ->
     Total.converted (Part000.totalNetBalance transactions displayCurrency) = nzero)
    /\ (forall a rates,
          ratesIn displayCurrency transactions = a :: rates ->
          truthy (mean a rates) = true ->
          Total.converted (Part000.totalNetBalance transactions displayCurrency)
          = (baseTotal transactions / mean a rates)%num).
Proof.
  intros num N L transactions displayCurrency.
  rewrite converted_unfold, averageRates_ratesIn, totalNetBalance_DZD,
    totalNetBalanceDZD_baseTotal.
  split.
  - intros ->. simpl. now rewrite zero_falsy.
  - intros a rates -> Hmean. change (Part000.average (a :: rates)) with (mean a rates).
    now rewrite Hmean.
Qed.

Lemma converted_total_divides_by_mean_rate_witness :
  (ratesIn EUR usdOnly = []
   /\ Total.converted (Part000.totalNetBalance usdOnly EUR) = nzero)
  /\ (ratesIn EUR mixedList = [0.9; 1.1; 0.8]%float
      /\ truthy (mean 0.9%float [1.1; 0.8]%float) = true
      /\ Total.converted (Part000.totalNetBalance mixedList EUR)
         = (baseTotal mixedList / mean 0.9%float [1.1; 0.8]%float)%num).
Proof.
  split.
  - split; [reflexivity|].
    exact (proj1 (@converted_total_divides_by_mean_rate float float_Number
                    float_PositiveLaws usdOnly EUR) eq_refl).
  - split; [reflexivity|]. split; [reflexivity|].
    exact (proj2 (@converted_total_divides_by_mean_rate float float_Number
                    float_PositiveLaws mixedList EUR) _ _ eq_refl eq_refl).
Defined.

(** ** C5: the example *)

(** C5.  For the list that holds the single transaction [{currencyCode:
    "USD", targetCurrency: "EUR", type: "buy", amount: 100, rate: 0.9}] and
    the display currency EUR, both versions return exactly one row, with
    code ["USD"], buys [100], sells [0] and net total [90], on binary64
    numbers. *)
Theorem usd_buy_gives_one_row :
  forall CURRENCIES : list CurrencyInfo.t,
    BalanceTsx.balances CURRENCIES usdBuy EUR
    = [ {| Row.code := "USD";
           Row.buys := 100%float;
           Row.sells := 0%float;
           Row.currency :=
             find (fun c => String.eqb (CurrencyInfo.code c) "USD") CURRENCIES;
           Row.targetCurrency := EUR;
           Row.netTotal := 90%float |} ]
    /\ Part000.balances CURRENCIES usdBuy EUR
       = [ {| Row.code := "USD";
              Row.buys := 100%float;
              Row.sells := 0%float;
              Row.currency :=
                find (fun c => String.eqb (CurrencyInfo.code c) "USD") CURRENCIES;
              Row.targetCurrency := EUR;
              Row.netTotal := 90%float |} ].
Proof. intros CURRENCIES. split; reflexivity. Qed.

(** ** C6: the empty states *)
Section EmptyStates.
Context {num : Type} `{Number num}.
Variable CURRENCIES : list CurrencyInfo.t.
Variable formatCurrency : num -> string -> string.
Implicit Types (t : Transaction.t num) (l : list (Transaction.t num)) (dc : Currency).

Lemma none_inCurrency l dc :
  (forall t, In t l -> Transaction.targetCurrency t <> dc) ->
  filter (inCurrency dc) l = [].
Proof.
  intros Hnone. induction l as [|t l IH]; simpl; [reflexivity|].
  destruct (inCurrency dc t) eqn:Hin.
  - apply Currency_eqb_eq in Hin. elim (Hnone t); [now left | exact Hin].
  - apply IH. intros t' Ht'. apply Hnone. now right.
Qed.

Lemma balances_none l dc :
  filter (inCurrency dc) l = [] -> BalanceTsx.balances CURRENCIES l dc = [].
Proof.
  intros Hnone. rewrite balances_closed. unfold codesIn. now rewrite Hnone.
Qed.

Lemma average_none l dc :
  filter (inCurrency dc) l = [] -> ratesAt (Part000.averageRates l) dc = nzero.
Proof.
  intros Hnone. rewrite averageRates_ratesIn. unfold ratesIn. now rewrite Hnone.
Qed.
End EmptyStates.

(** C6.  In both versions: for the empty list the screen is the generic
    empty state; for a list that is not empty and holds no transaction
    whose target currency is the display currency, the screen shows the
    message "No transactions in <display currency>" below the summary card,
    and the card shows the total in the base currency over all the
    transactions of the list. *)
Theorem empty_state_and_no_transactions_message :
  forall (num : Type) (N : Number num) (L : @PositiveLaws num N)
         (CURRENCIES : list CurrencyInfo.t) (formatCurrency : num -> string -> string)
         (displayCurrency : Currency),
    BalanceTsx.BalanceScreen CURRENCIES formatCurrency [] displayCurrency
    = Rendered (EmptyState "No transactions yet"
        "Your balance summary will appear here once you make transactions" "history")
    /\ Part000.BalanceScreen CURRENCIES formatCurrency [] displayCurrency
       = Rendered (EmptyState "No transactions yet"
           "Your balance summary will appear here once you make transactions" "history")
    /\ forall transactions : list (Transaction.t num),
         transactions <> [] ->
         (forall t, In t transactions -> Transaction.targetCurrency t <> displayCurrency) ->
         BalanceTsx.BalanceScreen CURRENCIES formatCurrency transactions displayCurrency
         = Rendered
             (Summary (Currency_name displayCurrency)
                {| cardLabel := "Total Net Balance (DZD):";
                   primaryValue :=
                     {| valueStyle := BalanceTsx.styleOf (baseTotal transactions);
                        valueText := formatCurrency (baseTotal transactions) "DZD" |};
                   secondaryValue := None |}
                (NoTransactionsIn displayCurrency))
         /\ Part000.BalanceScreen CURRENCIES formatCurrency transactions displayCurrency
            = Rendered
                (Summary (Currency_name displayCurrency)
                   {| cardLabel := "Total Net Balance:";
                      primaryValue :=
                        {| valueStyle := Part000.styleOf (baseTotal transactions);
                           valueText := formatCurrency (baseTotal transactions) "DZD" |};
                      secondaryValue := None |}
                   (NoTransactionsIn displayCurrency)).
Proof.
  intros num N L CURRENCIES formatCurrency displayCurrency.
  split; [reflexivity|]. split; [reflexivity|].
  intros transactions Hsome Hnone.
  apply none_inCurrency in Hnone.
  assert (Hlen : (0 <? List.length transactions)%nat = true)
    by (destruct transactions; [contradiction | reflexivity]).
  split.
  - unfold BalanceTsx.BalanceScreen.
    rewrite Hlen, (balances_none CURRENCIES _ _ Hnone), totalNetBalanceDZD_baseTotal.
    reflexivity.
  - unfold Part000.BalanceScreen.
    rewrite Hlen, Part000_balances_eq, (balances_none CURRENCIES _ _ Hnone).
    rewrite (average_none _ _ Hnone), gtb_zero_zero.
    rewrite totalNetBalance_DZD, totalNetBalanceDZD_baseTotal.
    reflexivity.
Qed.

Lemma empty_state_and_no_transactions_message_witness :
  usdOnly <> []
  /\ (forall t, In t usdOnly -> Transaction.targetCurrency t <> EUR)
  /\ BalanceTsx.BalanceScreen sampleCurrencies sampleFormat usdOnly EUR
     = Rendered
         (Summary "EUR"
            {| cardLabel := "Total Net Balance (DZD):";
               primaryValue := {| valueStyle := positive; valueText := "DZD" |};
               secondaryValue := None |}
            (NoTransactionsIn EUR))
  /\ Part000.BalanceScreen sampleCurrencies sampleFormat usdOnly EUR
     = Rendered
         (Summary "EUR"
            {| cardLabel := "Total Net Balance:";
               primaryValue := {| valueStyle := positive; valueText := "DZD" |};
               secondaryValue := None |}
            (NoTransactionsIn EUR)).
Proof.
  assert (Hsome : usdOnly <> []) by discriminate.
  assert (Hnone : forall t, In t usdOnly -> Transaction.targetCurrency t <> EUR).
  { intros t [<-|[<-|[]]]; discriminate. }
  split; [exact Hsome|]. split; [exact Hnone|].
  exact (proj2 (proj2 (@empty_state_and_no_transactions_message float float_Number
                         float_PositiveLaws sampleCurrencies sampleFormat EUR))
           usdOnly Hsome Hnone).
Defined.

(** ** C7: the colour of the net total *)

(** C7.  In both versions, every row whose currency reference is defined
    is rendered as a card, and the card shows the net total in the success
    style [styles.positive] exactly when the row's [netTotal] is greater
    than zero, and in the error style [styles.negative] otherwise; a
    [netTotal] of zero is shown in the error style. *)
Theorem net_total_style_follows_sign :
  forall (num : Type) (N : Number num) (L : @PositiveLaws num N)
         (formatCurrency : num -> string -> string) (displayCurrency : Currency)
         (item : Row.t num) (currency : CurrencyInfo.t),
    Row.currency item = Some currency ->
    exists card card',
      BalanceTsx.renderBalanceItem formatCurrency displayCurrency item = Rendered card
      /\ Part000.renderBalanceItem formatCurrency displayCurrency item = Rendered card'
      /\ ((netTotalStyle card = positive <-> (Row.netTotal item >? nzero)%num = true)
          /\ (netTotalStyle card = negative <-> (Row.netTotal item >? nzero)%num = false)
          /\ (Row.netTotal item = nzero -> netTotalStyle card = negative))
      /\ ((netTotalStyle card' = positive <-> (Row.netTotal item >? nzero)%num = true)
          /\ (netTotalStyle card' = negative <-> (Row.netTotal item >? nzero)%num = false)
          /\ (Row.netTotal item = nzero -> netTotalStyle card' = negative)).
Proof.
  intros num N L formatCurrency displayCurrency item currency Hcurrency.
  unfold BalanceTsx.renderBalanceItem, Part000.renderBalanceItem.
  rewrite Hcurrency. eexists. eexists.
  split; [reflexivity|]. split; [reflexivity|].
  cbn [netTotalStyle]. unfold BalanceTsx.styleOf, Part000.styleOf.
  assert (Hzero : Row.netTotal item = nzero -> (Row.netTotal item >? nzero)%num = false)
    by (intros ->; apply gtb_zero_zero).
  destruct (Row.netTotal item >? nzero)%num.
  - split; (split; [split; congruence|]);
      (split; [split; congruence|]); intros Heq; now apply Hzero in Heq.
  - split; (split; [split; congruence|]); (split; [split; congruence|]); reflexivity.
Qed.

Lemma net_total_style_follows_sign_witness :
  Row.currency zeroRow
  = Some {| CurrencyInfo.code := "USD"; CurrencyInfo.name := "US Dollar";
            CurrencyInfo.flagUrl := "usd.png" |}
  /\ Row.netTotal zeroRow = nzero
  /\ exists card card',
       BalanceTsx.renderBalanceItem sampleFormat EUR zeroRow = Rendered card
       /\ Part000.renderBalanceItem sampleFormat EUR zeroRow = Rendered card'
       /\ styledBySign zeroRow card
       /\ styledBySign zeroRow card'.
Proof.
  split; [reflexivity|]. split; [reflexivity|].
  exact (@net_total_style_follows_sign float float_Number float_PositiveLaws
           sampleFormat EUR zeroRow _ eq_refl).
Defined.

(** ** C8: a currency code without an entry in the table *)
Section UnknownCurrency.
Context {num : Type} `{Number num}.
Variable CURRENCIES : list CurrencyInfo.t.
Variable formatCurrency : num -> string -> string.
Implicit Types (t : Transaction.t num) (l : list (Transaction.t num)) (dc : Currency).

Lemma renderAll_throws {A B} (f : A -> Outcome B) (e : Exception) (xs : list A) :
  (forall x e', f x = Throws e' -> e' = e) ->
  (exists x, In x xs /\ f x = Throws e) ->
  renderAll f xs = Throws e.
Proof.
  intros Hsame [x0 [Hin0 Hthrows]].
  induction xs as [|x xs IH]; [contradiction|]. simpl.
  destruct (f x) as [b|e'] eqn:Hfx; simpl.
  - destruct Hin0 as [->|Hin0]; [congruence|]. now rewrite IH.
  - f_equal. now apply (Hsame x).
Qed.

Lemma renderAll_renders {A B} (f : A -> Outcome B) (xs : list A) :
  (forall x, In x xs -> exists y, f x = Rendered y) ->
  exists ys, renderAll f xs = Rendered ys.
Proof.
  induction xs as [|x xs IH]; intros Hall; simpl; [now exists []|].
  destruct (Hall x (or_introl eq_refl)) as [y ->].
  destruct IH as [ys ->]; [intros x' Hx'; apply Hall; now right|].
  now exists (y :: ys).
Qed.

Lemma renderBalanceItem_throws dc (item : Row.t num) e :
  BalanceTsx.renderBalanceItem formatCurrency dc item = Throws e ->
  e = TypeError "flagUrl".
Proof.
  unfold BalanceTsx.renderBalanceItem. destruct (Row.currency item); congruence.
Qed.

(** The currency reference of every row is the result of the lookup of its
    code in the table. *)
Lemma balances_currency l dc (r : Row.t num) :
  In r (BalanceTsx.balances CURRENCIES l dc) ->
  In (Row.code r) (codesIn dc l)
  /\ Row.currency r
     = find (fun c => String.eqb (CurrencyInfo.code c) (Row.code r)) CURRENCIES.
Proof.
  rewrite balances_closed. intros Hr. apply in_map_iff in Hr.
  destruct Hr as [k [<- Hk]]. simpl. rewrite entry_currency. split; [|reflexivity].
  exact (proj1 (In_firstSeen k (codesIn dc l)) Hk).
Qed.

Lemma balances_row_of_code l dc k :
  In k (codesIn dc l) ->
  exists r, In r (BalanceTsx.balances CURRENCIES l dc)
            /\ Row.code r = k
            /\ Row.currency r
               = find (fun c => String.eqb (CurrencyInfo.code c) k) CURRENCIES.
Proof.
  intros Hk. rewrite balances_closed.
  exists (rowOf l (k, entryFrom dc l k (fresh CURRENCIES k dc))).
  split; [|split].
  - apply (in_map (fun k => rowOf l (k, entryFrom dc l k (fresh CURRENCIES k dc)))).
    exact (proj2 (In_firstSeen k (codesIn dc l)) Hk).
  - reflexivity.
  - simpl. apply entry_currency.
Qed.

(** The first version throws as soon as a transaction in the display
    currency has a code without an entry in the table. *)
Lemma BalanceScreen_throws l dc t :
  In t l ->
  Transaction.targetCurrency t = dc ->
  find (fun c => String.eqb (CurrencyInfo.code c) (Transaction.currencyCode t)) CURRENCIES
  = None ->
  BalanceTsx.BalanceScreen CURRENCIES formatCurrency l dc = Throws (TypeError "flagUrl").
Proof.
  intros Ht Htarget Hfind.
  assert (Hk : In (Transaction.currencyCode t) (codesIn dc l)).
  { apply In_codesIn. now exists t. }
  destruct (balances_row_of_code l dc _ Hk) as [r [Hr [Hcode Hcur]]].
  unfold BalanceTsx.BalanceScreen.
  replace (0 <? List.length l)%nat with true by (destruct l; [contradiction | reflexivity]).
  replace (0 <? List.length (BalanceTsx.balances CURRENCIES l dc))%nat with true
    by (destruct (BalanceTsx.balances CURRENCIES l dc); [contradiction | reflexivity]).
  rewrite (@renderAll_throws _ _ (BalanceTsx.renderBalanceItem formatCurrency dc)
             (TypeError "flagUrl")); [reflexivity | |].
  - intros x e'. apply renderBalanceItem_throws.
  - exists r. split; [exact Hr|].
    unfold BalanceTsx.renderBalanceItem. now rewrite Hcur, Hfind.
Qed.

(** It renders when every such code has an entry. *)
Lemma BalanceScreen_renders l dc :
  (forall t, In t l -> Transaction.targetCurrency t = dc ->
     find (fun c => String.eqb (CurrencyInfo.code c) (Transaction.currencyCode t))
          CURRENCIES <> None) ->
  exists screen, BalanceTsx.BalanceScreen CURRENCIES formatCurrency l dc = Rendered screen.
Proof.
  intros Hknown. unfold BalanceTsx.BalanceScreen.
  destruct (0 <? List.length l)%nat; [|eexists; reflexivity].
  destruct (0 <? List.length (BalanceTsx.balances CURRENCIES l dc))%nat;
    [|eexists; reflexivity].
  destruct (@renderAll_renders _ _ (BalanceTsx.renderBalanceItem formatCurrency dc)
              (BalanceTsx.balances CURRENCIES l dc)) as [items ->];
    [|eexists; reflexivity].
  intros r Hr. apply balances_currency in Hr. destruct Hr as [Hk Hcur].
  apply In_codesIn in Hk. destruct Hk as [t [Ht [Htarget Hcode]]].
  specialize (Hknown t Ht Htarget). rewrite Hcode, <- Hcur in Hknown.
  unfold BalanceTsx.renderBalanceItem.
  destruct (Row.currency r); [eexists; reflexivity | contradiction].
Qed.

(** The two versions render alike, up to the summary card. *)
Lemma Part000_BalanceScreen_plain l dc :
  plainOutcome (Part000.BalanceScreen CURRENCIES formatCurrency l dc)
  = BalanceTsx.BalanceScreen CURRENCIES formatCurrency l dc.
Proof.
  unfold Part000.BalanceScreen, BalanceTsx.BalanceScreen.
  destruct (0 <? List.length l)%nat; [|reflexivity].
  change (Part000.balances CURRENCIES l dc) with (BalanceTsx.balances CURRENCIES l dc).
  destruct (0 <? List.length (BalanceTsx.balances CURRENCIES l dc))%nat; [|reflexivity].
  change (Part000.renderBalanceItem formatCurrency dc)
    with (BalanceTsx.renderBalanceItem formatCurrency dc).
  destruct (renderAll (BalanceTsx.renderBalanceItem formatCurrency dc)
              (BalanceTsx.balances CURRENCIES l dc)); reflexivity.
Qed.

Lemma plainOutcome_throws (o : Outcome Screen) (e : Exception) :
  plainOutcome o = Throws e -> o = Throws e.
Proof. destruct o; simpl; congruence. Qed.
End UnknownCurrency.

(** C8.  The claim does not hold of the code.  In both versions, when a
    transaction in the display currency has a currency code without an
    entry in [CURRENCIES], the currency reference of its row is
    [undefined], and rendering the row reads [item.currency.flagUrl], which
    throws a [TypeError]: the screen is not rendered. *)
Theorem unknown_currency_code_throws :
  forall (num : Type) (N : Number num)
         (CURRENCIES : list CurrencyInfo.t) (formatCurrency : num -> string -> string)
         (transactions : list (Transaction.t num)) (displayCurrency : Currency)
         (t : Transaction.t num),
    In t transactions ->
    Transaction.targetCurrency t = displayCurrency ->
    find (fun c => String.eqb (CurrencyInfo.code c) (Transaction.currencyCode t))
         CURRENCIES = None ->
    BalanceTsx.BalanceScreen CURRENCIES formatCurrency transactions displayCurrency
    = Throws (TypeError "flagUrl")
    /\ Part000.BalanceScreen CURRENCIES formatCurrency transactions displayCurrency
       = Throws (TypeError "flagUrl").
Proof.
  intros num N CURRENCIES formatCurrency transactions displayCurrency t Ht Htarget Hfind.
  assert (Hthrows := @BalanceScreen_throws num N CURRENCIES formatCurrency
                       transactions displayCurrency t Ht Htarget Hfind).
  split; [exact Hthrows|].
  apply plainOutcome_throws. now rewrite Part000_BalanceScreen_plain.
Qed.

Lemma unknown_currency_code_throws_witness :
  find (fun c => String.eqb (CurrencyInfo.code c) "XXX") sampleCurrencies = None
  /\ BalanceTsx.BalanceScreen sampleCurrencies sampleFormat unknownCode EUR
     = Throws (TypeError "flagUrl")
  /\ Part000.BalanceScreen sampleCurrencies sampleFormat unknownCode EUR
     = Throws (TypeError "flagUrl").
Proof.
  split; [reflexivity|].
  exact (@unknown_currency_code_throws float float_Number sampleCurrencies sampleFormat
           unknownCode EUR (transaction "XXX" EUR buy 1%float 1%float)
           (or_introl eq_refl) eq_refl eq_refl).
Defined.

(** ** C10: the two versions *)

(** C10.  For every list of transactions and display currency the two
    versions build the same rows, in the same order and with the same
    figures, and the same total in the base currency; their screens differ
    by the summary card only, in its label and in the converted total. *)
Theorem versions_agree :
  forall (num : Type) (N : Number num)
         (CURRENCIES : list CurrencyInfo.t) (formatCurrency : num -> string -> string)
         (transactions : list (Transaction.t num)) (displayCurrency : Currency),
    Part000.balances CURRENCIES transactions displayCurrency
    = BalanceTsx.balances CURRENCIES transactions displayCurrency
    /\ Total.DZD (Part000.totalNetBalance transactions displayCurrency)
       = BalanceTsx.totalNetBalanceDZD transactions
    /\ plainOutcome (Part000.BalanceScreen CURRENCIES formatCurrency
                       transactions displayCurrency)
       = BalanceTsx.BalanceScreen CURRENCIES formatCurrency transactions displayCurrency.
Proof.
  intros num N CURRENCIES formatCurrency transactions displayCurrency.
  split; [apply Part000_balances_eq|].
  split; [apply totalNetBalance_DZD|].
  apply Part000_BalanceScreen_plain.
Qed.

(** * More of the screen *)

(** ** The rows, for every list *)
Section RowsInGeneral.
Context {num : Type} `{Number num}.
Variable CURRENCIES : list CurrencyInfo.t.
Implicit Types (t : Transaction.t num) (l : list (Transaction.t num))
               (b : Balance.t num) (dc : Currency) (k : string).

Local Open Scope num_scope.

Lemma balances_codes l dc :
  map (@Row.code num) (BalanceTsx.balances CURRENCIES l dc) = firstSeen (codesIn dc l).
Proof. rewrite balances_closed, map_map. simpl. apply map_id. Qed.

Lemma firstSeen_length (cs : list string) :
  (List.length (firstSeen cs) <= List.length cs)%nat.
Proof.
  induction cs as [|c cs IH]; simpl; [lia|].
  assert (Hle := filter_length_le (fun c' => negb (String.eqb c c')) (firstSeen cs)). lia.
Qed.

Lemma firstSeen_nil (cs : list string) : firstSeen cs = [] -> cs = [].
Proof. destruct cs; [reflexivity | discriminate]. Qed.

Lemma balances_nil_iff l dc :
  BalanceTsx.balances CURRENCIES l dc = [] <-> filter (inCurrency dc) l = [].
Proof.
  split.
  - intros Hnil. apply (f_equal (map (@Row.code num))) in Hnil.
    rewrite balances_codes in Hnil. simpl in Hnil. apply firstSeen_nil in Hnil.
    unfold codesIn in Hnil. now apply map_eq_nil in Hnil.
  - apply balances_none.
Qed.

Lemma filter_nil_none l dc :
  filter (inCurrency dc) l = [] ->
  forall t, In t l -> Transaction.targetCurrency t <> dc.
Proof.
  intros Hnil t Ht Htarget.
  assert (Hin : In t (filter (inCurrency dc) l)).
  { apply filter_In. split; [exact Ht | now apply Currency_eqb_eq]. }
  now rewrite Hnil in Hin.
Qed.
End RowsInGeneral.

(** X1.  In both versions, for every list and display currency, the keys
    [keyExtractor] gives the cards of the list are pairwise distinct, and
    there are at most as many rows as transactions in the display
    currency. *)
Theorem flatlist_keys_are_distinct :
  forall (num : Type) (N : Number num) (CURRENCIES : list CurrencyInfo.t)
         (transactions : list (Transaction.t num)) (displayCurrency : Currency),
    NoDup (map BalanceTsx_keyExtractor
               (BalanceTsx.balances CURRENCIES transactions displayCurrency))
    /\ NoDup (map Part000_keyExtractor
                  (Part000.balances CURRENCIES transactions displayCurrency))
    /\ (List.length (BalanceTsx.balances CURRENCIES transactions displayCurrency)
        <= List.length (filter (inCurrency displayCurrency) transactions))%nat.
Proof.
  intros num N CURRENCIES transactions displayCurrency.
  assert (Hkeys : NoDup (map BalanceTsx_keyExtractor
                    (BalanceTsx.balances CURRENCIES transactions displayCurrency))).
  { change (@BalanceTsx_keyExtractor num) with (@Row.code num).
    rewrite balances_codes. apply NoDup_firstSeen. }
  split; [exact Hkeys|]. split; [exact Hkeys|].
  rewrite <- (length_map (@Row.code num)), balances_codes.
  unfold codesIn. rewrite <- (length_map (@Transaction.currencyCode num)
                               (filter (inCurrency displayCurrency) transactions)).
  apply firstSeen_length.
Qed.

(** X2.  In both versions, for every list, the currency reference of each
    row is the first entry of [CURRENCIES] with the code of the row, or
    [undefined] when the table has none, and the target currency of each row
    is the display currency: both are set when the code is first seen and
    kept by the later transactions of the code. *)
Theorem rows_keep_currency_reference :
  forall (num : Type) (N : Number num) (CURRENCIES : list CurrencyInfo.t)
         (transactions : list (Transaction.t num)) (displayCurrency : Currency),
    Forall
      (fun r =>
         Row.currency r
         = find (fun c => String.eqb (CurrencyInfo.code c) (Row.code r)) CURRENCIES
         /\ Row.targetCurrency r = displayCurrency)
      (BalanceTsx.balances CURRENCIES transactions displayCurrency)
    /\ Forall
         (fun r =>
            Row.currency r
            = find (fun c => String.eqb (CurrencyInfo.code c) (Row.code r)) CURRENCIES
            /\ Row.targetCurrency r = displayCurrency)
         (Part000.balances CURRENCIES transactions displayCurrency).
Proof.
  intros num N CURRENCIES transactions displayCurrency.
  assert (Hrows :
    Forall
      (fun r =>
         Row.currency r
         = find (fun c => String.eqb (CurrencyInfo.code c) (Row.code r)) CURRENCIES
         /\ Row.targetCurrency r = displayCurrency)
      (BalanceTsx.balances CURRENCIES transactions displayCurrency)).
  { rewrite balances_closed. apply Forall_forall. intros r Hr.
    apply in_map_iff in Hr. destruct Hr as [k [<- _]]. simpl.
    now rewrite entry_currency, entry_target. }
  split; exact Hrows.
Qed.

(** X3.  In both versions, for every list, whatever the rates: the lookup
    of the rate of a row always finds a transaction of the list, so the
    fallback of the optional chaining is never taken, and the net total of
    the row is [buys - sells] times the rate of that transaction when the
    rate is truthy, and times [0] when the rate is zero or [NaN]. *)
Theorem net_total_uses_rate_or_zero :
  forall (num : Type) (N : Number num) (CURRENCIES : list CurrencyInfo.t)
         (transactions : list (Transaction.t num)) (displayCurrency : Currency),
    Forall
      (fun r =>
         exists t,
           In t transactions
           /\ firstMatch transactions (Row.code r) displayCurrency = Some t
           /\ Row.netTotal r
              = ((Row.buys r - Row.sells r)
                 * (if truthy (Transaction.rate t) then Transaction.rate t else nzero))%num)
      (BalanceTsx.balances CURRENCIES transactions displayCurrency)
    /\ Part000.balances CURRENCIES transactions displayCurrency
       = BalanceTsx.balances CURRENCIES transactions displayCurrency.
Proof.
  intros num N CURRENCIES transactions displayCurrency.
  split; [|reflexivity].
  rewrite balances_closed. apply Forall_forall. intros r Hr.
  apply in_map_iff in Hr. destruct Hr as [k [<- Hk]].
  apply (proj1 (In_firstSeen k (codesIn displayCurrency transactions))) in Hk.
  destruct (firstMatch_defined _ _ _ Hk) as [t [Hfirst Ht]].
  exists t. split; [exact Ht|]. split; [exact Hfirst|].
  simpl. rewrite entry_target. now rewrite (rateOf_firstMatch _ _ _ Hfirst).
Qed.

(** ** What the screen shows *)
Section ScreenShape.
Context {num : Type} `{Number num}.
Variable CURRENCIES : list CurrencyInfo.t.
Variable formatCurrency : num -> string -> string.
Implicit Types (t : Transaction.t num) (l : list (Transaction.t num)) (dc : Currency).

Local Open Scope num_scope.

Lemma renderAll_Forall2 {A B} (f : A -> Outcome B) (xs : list A) : forall ys,
  renderAll f xs = Rendered ys -> Forall2 (fun x y => f x = Rendered y) xs ys.
Proof.
  induction xs as [|x xs IH]; simpl; intros ys Hys.
  - injection Hys as <-. constructor.
  - destruct (f x) as [y|e] eqn:Hfx; simpl in Hys; [|discriminate].
    destruct (renderAll f xs) as [ys'|e]; simpl in Hys; [|discriminate].
    injection Hys as <-. constructor; [exact Hfx | now apply IH].
Qed.

(** The summary card of the first version. *)
Lemma BalanceScreen_card l dc card :
  showsCard (BalanceTsx.BalanceScreen CURRENCIES formatCurrency l dc) card ->
  card = {| cardLabel := "Total Net Balance (DZD):";
            primaryValue :=
              {| valueStyle := BalanceTsx.styleOf (baseTotal l);
                 valueText := formatCurrency (baseTotal l) "DZD" |};
            secondaryValue := None |}.
Proof.
  intros [selector [area Hscreen]]. unfold BalanceTsx.BalanceScreen in Hscreen.
  rewrite totalNetBalanceDZD_baseTotal in Hscreen.
  destruct (0 <? List.length l)%nat; [|discriminate].
  destruct (0 <? List.length _)%nat.
  - destruct (renderAll _ _); simpl in Hscreen; [|discriminate].
    now injection Hscreen as _ <- _.
  - now injection Hscreen as _ <- _.
Qed.

(** The cards of the first version are the rendered rows. *)
Lemma BalanceScreen_cards l dc items :
  showsCards (BalanceTsx.BalanceScreen CURRENCIES formatCurrency l dc) items ->
  renderAll (BalanceTsx.renderBalanceItem formatCurrency dc)
            (BalanceTsx.balances CURRENCIES l dc) = Rendered items.
Proof.
  intros [selector [card Hscreen]]. unfold BalanceTsx.BalanceScreen in Hscreen.
  destruct (0 <? List.length l)%nat; [|discriminate].
  destruct (0 <? List.length _)%nat; [|discriminate].
  destruct (renderAll _ _); simpl in Hscreen; [|discriminate].
  now injection Hscreen as _ _ <-.
Qed.

Lemma Part000_showsCards l dc items :
  showsCards (Part000.BalanceScreen CURRENCIES formatCurrency l dc) items ->
  showsCards (BalanceTsx.BalanceScreen CURRENCIES formatCurrency l dc) items.
Proof.
  intros [selector [card Hscreen]].
  rewrite <- Part000_BalanceScreen_plain, Hscreen. simpl.
  now exists selector, (plainCard card).
Qed.

Lemma showsCards_either l dc items :
  showsCards (BalanceTsx.BalanceScreen CURRENCIES formatCurrency l dc) items
  \/ showsCards (Part000.BalanceScreen CURRENCIES formatCurrency l dc) items ->
  renderAll (BalanceTsx.renderBalanceItem formatCurrency dc)
            (BalanceTsx.balances CURRENCIES l dc) = Rendered items.
Proof.
  intros [Hshows|Hshows]; apply BalanceScreen_cards; [|apply Part000_showsCards];
    exact Hshows.
Qed.

Lemma BalanceScreen_throws_inv l dc e :
  BalanceTsx.BalanceScreen CURRENCIES formatCurrency l dc = Throws e ->
  e = TypeError "flagUrl"
  /\ exists t, In t l /\ Transaction.targetCurrency t = dc
               /\ find (fun c => String.eqb (CurrencyInfo.code c)
                                            (Transaction.currencyCode t)) CURRENCIES
                  = None.
Proof.
  intros Hthrows.
  assert (Hdec :
    (forall t, In t l -> Transaction.targetCurrency t = dc ->
       find (fun c => String.eqb (CurrencyInfo.code c) (Transaction.currencyCode t))
            CURRENCIES <> None)
    \/ exists t, In t l /\ Transaction.targetCurrency t = dc
                 /\ find (fun c => String.eqb (CurrencyInfo.code c)
                                              (Transaction.currencyCode t)) CURRENCIES
                    = None).
  { clear Hthrows. induction l as [|t l IH]; [left; intros t []|].
    destruct IH as [IH|[t' [Ht' Hrest]]].
    - destruct (Currency_eqb (Transaction.targetCurrency t) dc) eqn:Htarget.
      + apply Currency_eqb_eq in Htarget.
        destruct (find (fun c => String.eqb (CurrencyInfo.code c)
                                            (Transaction.currencyCode t)) CURRENCIES)
          eqn:Hfind.
        * left. intros t' [<-|Ht'] Htarget'; [now rewrite Hfind | now apply IH].
        * right. exists t. split; [now left | now split].
      + left. intros t' [<-|Ht'] Htarget'; [|now apply IH].
        apply Currency_eqb_eq in Htarget'. congruence.
    - right. exists t'. split; [now right | exact Hrest]. }
  destruct Hdec as [Hknown|[t [Ht [Htarget Hfind]]]].
  - destruct (@BalanceScreen_renders num _ CURRENCIES formatCurrency l dc Hknown)
      as [screen Hscreen].
    congruence.
  - rewrite (@BalanceScreen_throws num _ CURRENCIES formatCurrency l dc t Ht Htarget Hfind)
      in Hthrows.
    injection Hthrows as <-. split; [reflexivity|]. now exists t.
Qed.
End ScreenShape.

Section ScreenFacts.
Context {num : Type} `{Number num}.
Variable CURRENCIES : list CurrencyInfo.t.
Variable formatCurrency : num -> string -> string.
Implicit Types (t : Transaction.t num) (l : list (Transaction.t num)) (dc : Currency).

Local Open Scope num_scope.

Lemma plainOutcome_rendered (o : Outcome Screen) (screen : Screen) :
  plainOutcome o = Rendered screen -> exists screen', o = Rendered screen'.
Proof. destruct o as [screen'|e]; simpl; [now exists screen' | discriminate]. Qed.

Lemma plainOutcome_summary (o : Outcome Screen) selector card area :
  plainOutcome o = Rendered (Summary selector card area) ->
  exists card', o = Rendered (Summary selector card' area).
Proof.
  destruct o as [[title description icon|selector' card' area']|e]; simpl;
    try discriminate.
  intros [= -> _ ->]. now exists card'.
Qed.

Lemma Part000_renders_iff l dc :
  (exists screen, Part000.BalanceScreen CURRENCIES formatCurrency l dc = Rendered screen)
  <-> (exists screen,
         BalanceTsx.BalanceScreen CURRENCIES formatCurrency l dc = Rendered screen).
Proof.
  rewrite <- Part000_BalanceScreen_plain. split.
  - intros [screen ->]. now exists (plainScreen screen).
  - intros [screen Hscreen]. now apply plainOutcome_rendered in Hscreen.
Qed.

Lemma BalanceScreen_no_transactions l dc dc' :
  (exists selector card,
     BalanceTsx.BalanceScreen CURRENCIES formatCurrency l dc
     = Rendered (Summary selector card (NoTransactionsIn dc')))
  <-> dc' = dc /\ l <> []
      /\ forall t, In t l -> Transaction.targetCurrency t <> dc.
Proof.
  unfold BalanceTsx.BalanceScreen. split.
  - intros [selector [card Hscreen]].
    destruct l as [|t0 l0]; [discriminate|].
    change (0 <? List.length (t0 :: l0))%nat with true in Hscreen. cbv iota in Hscreen.
    destruct (BalanceTsx.balances CURRENCIES (t0 :: l0) dc) as [|r rows] eqn:Hrows.
    + simpl in Hscreen. injection Hscreen as _ _ <-.
      split; [reflexivity|]. split; [discriminate|].
      apply filter_nil_none. now apply (balances_nil_iff CURRENCIES).
    + change (0 <? List.length (r :: rows))%nat with true in Hscreen. cbv iota in Hscreen.
      destruct (renderAll _ _); simpl in Hscreen; discriminate.
  - intros [-> [Hsome Hnone]].
    replace (0 <? List.length l)%nat with true
      by (destruct l; [contradiction | reflexivity]).
    rewrite (balances_none CURRENCIES _ _ (none_inCurrency _ Hnone)). simpl.
    eexists. eexists. reflexivity.
Qed.

Lemma rendered_codes (dc : Currency) (rows : list (Row.t num)) : forall items,
  Forall2 (fun r item => BalanceTsx.renderBalanceItem formatCurrency dc r = Rendered item)
          rows items ->
  map currencyCodeText items = map (@Row.code num) rows.
Proof.
  induction 1 as [|r item rows items Hr _ IH]; simpl; [reflexivity|].
  rewrite IH. f_equal. unfold BalanceTsx.renderBalanceItem in Hr.
  destruct (Row.currency r); [|discriminate]. now injection Hr as <-.
Qed.

Lemma Forall2_right {A B} (R : A -> B -> Prop) (xs : list A) (ys : list B) :
  Forall2 R xs ys -> Forall (fun y => exists x, In x xs /\ R x y) ys.
Proof.
  induction 1 as [|x y xs ys Hxy _ IH]; constructor.
  - exists x. split; [now left | exact Hxy].
  - apply (Forall_impl _ (P := fun y => exists x, In x xs /\ R x y)); [|exact IH].
    intros y' [x' [Hx' Hr]]. exists x'. split; [now right | exact Hr].
Qed.
End ScreenFacts.

(** X4.  In both versions the screen is rendered exactly when every
    transaction in the display currency has a currency code with an entry
    in [CURRENCIES]; when it is not, the exception is the [TypeError] of
    reading [flagUrl]. *)
Theorem screen_renders_iff_codes_known :
  forall (num : Type) (N : Number num)
         (CURRENCIES : list CurrencyInfo.t) (formatCurrency : num -> string -> string)
         (transactions : list (Transaction.t num)) (displayCurrency : Currency),
    ((exists screen,
        BalanceTsx.BalanceScreen CURRENCIES formatCurrency transactions displayCurrency
        = Rendered screen)
     <-> forall t, In t transactions -> Transaction.targetCurrency t = displayCurrency ->
           find (fun c => String.eqb (CurrencyInfo.code c) (Transaction.currencyCode t))
                CURRENCIES <> None)
    /\ ((exists screen,
           Part000.BalanceScreen CURRENCIES formatCurrency transactions displayCurrency
           = Rendered screen)
        <-> forall t, In t transactions -> Transaction.targetCurrency t = displayCurrency ->
              find (fun c => String.eqb (CurrencyInfo.code c) (Transaction.currencyCode t))
                   CURRENCIES <> None)
    /\ (forall e,
          BalanceTsx.BalanceScreen CURRENCIES formatCurrency transactions displayCurrency
          = Throws e
          \/ Part000.BalanceScreen CURRENCIES formatCurrency transactions displayCurrency
             = Throws e ->
          e = TypeError "flagUrl").
Proof.
  intros num N CURRENCIES formatCurrency transactions displayCurrency.
  assert (Hfirst :
    (exists screen,
       BalanceTsx.BalanceScreen CURRENCIES formatCurrency transactions displayCurrency
       = Rendered screen)
    <-> forall t, In t transactions -> Transaction.targetCurrency t = displayCurrency ->
          find (fun c => String.eqb (CurrencyInfo.code c) (Transaction.currencyCode t))
               CURRENCIES <> None).
  { split; [|apply BalanceScreen_renders].
    intros [screen Hscreen] t Ht Htarget Hfind.
    rewrite (@BalanceScreen_throws num N CURRENCIES formatCurrency transactions
               displayCurrency t Ht Htarget Hfind) in Hscreen.
    discriminate. }
  split; [exact Hfirst|]. split.
  - rewrite Part000_renders_iff. exact Hfirst.
  - intros e [Hthrows|Hthrows].
    + now apply BalanceScreen_throws_inv in Hthrows.
    + assert (Hplain := Part000_BalanceScreen_plain CURRENCIES formatCurrency
                          transactions displayCurrency).
      rewrite Hthrows in Hplain. simpl in Hplain. symmetry in Hplain.
      now apply BalanceScreen_throws_inv in Hplain.
Qed.

(** X5.  In both versions the screen shows the message "No transactions in
    X" exactly when the list is not empty and holds no transaction whose
    target currency is the display currency, and X is then the display
    currency. *)
Theorem no_transactions_message_iff :
  forall (num : Type) (N : Number num)
         (CURRENCIES : list CurrencyInfo.t) (formatCurrency : num -> string -> string)
         (transactions : list (Transaction.t num)) (displayCurrency shown : Currency),
    ((exists selector card,
        BalanceTsx.BalanceScreen CURRENCIES formatCurrency transactions displayCurrency
        = Rendered (Summary selector card (NoTransactionsIn shown)))
     <-> shown = displayCurrency /\ transactions <> []
         /\ forall t, In t transactions -> Transaction.targetCurrency t <> displayCurrency)
    /\ ((exists selector card,
           Part000.BalanceScreen CURRENCIES formatCurrency transactions displayCurrency
           = Rendered (Summary selector card (NoTransactionsIn shown)))
        <-> shown = displayCurrency /\ transactions <> []
            /\ forall t, In t transactions ->
                         Transaction.targetCurrency t <> displayCurrency).
Proof.
  intros num N CURRENCIES formatCurrency transactions displayCurrency shown.
  split; [apply BalanceScreen_no_transactions|].
  rewrite <- (BalanceScreen_no_transactions CURRENCIES formatCurrency).
  rewrite <- Part000_BalanceScreen_plain. split.
  - intros [selector [card ->]]. simpl. eexists. eexists. reflexivity.
  - intros [selector [card Hscreen]]. apply plainOutcome_summary in Hscreen.
    destruct Hscreen as [card' ->]. eexists. eexists. reflexivity.
Qed.

(** X6.  In both versions, when the screen shows a list of cards, the cards
    are headed by the distinct source currency codes of the transactions in
    the display currency, one card per code, in the order the codes are
    first seen. *)
Theorem cards_follow_first_seen_codes :
  forall (num : Type) (N : Number num)
         (CURRENCIES : list CurrencyInfo.t) (formatCurrency : num -> string -> string)
         (transactions : list (Transaction.t num)) (displayCurrency : Currency)
         (items : list BalanceItem),
    showsCards (BalanceTsx.BalanceScreen CURRENCIES formatCurrency transactions
                  displayCurrency) items
    \/ showsCards (Part000.BalanceScreen CURRENCIES formatCurrency transactions
                     displayCurrency) items ->
    map currencyCodeText items = firstSeen (codesIn displayCurrency transactions)
    /\ NoDup (map currencyCodeText items)
    /\ items <> [].
Proof.
  intros num N CURRENCIES formatCurrency transactions displayCurrency items Hshows.
  assert (Hcodes : map currencyCodeText items
                   = firstSeen (codesIn displayCurrency transactions)).
  { assert (Hitems := @showsCards_either num N CURRENCIES formatCurrency transactions
                         displayCurrency items Hshows).
    apply renderAll_Forall2 in Hitems.
    apply rendered_codes in Hitems. rewrite Hitems. apply balances_codes. }
  split; [exact Hcodes|]. split; [rewrite Hcodes; apply NoDup_firstSeen|].
  intros ->.
  assert (Hnil : BalanceTsx.balances CURRENCIES transactions displayCurrency = []).
  { apply (proj2 (balances_nil_iff CURRENCIES transactions displayCurrency)).
    simpl in Hcodes. symmetry in Hcodes. apply firstSeen_nil in Hcodes.
    unfold codesIn in Hcodes. now apply map_eq_nil in Hcodes. }
  assert (Hshows' : showsCards (BalanceTsx.BalanceScreen CURRENCIES formatCurrency
                                  transactions displayCurrency) []).
  { destruct Hshows as [Hshows|Hshows]; [exact Hshows | now apply Part000_showsCards]. }
  destruct Hshows' as [selector [card Hscreen]].
  unfold BalanceTsx.BalanceScreen in Hscreen. rewrite Hnil in Hscreen. simpl in Hscreen.
  destruct (0 <? List.length transactions)%nat; discriminate.
Qed.

Lemma cards_follow_first_seen_codes_witness :
  showsCards (BalanceTsx.BalanceScreen wideCurrencies sampleFormat mixedList EUR) mixedCards
  /\ map currencyCodeText mixedCards = ["USD"; "GBP"]
  /\ NoDup (map currencyCodeText mixedCards)
  /\ mixedCards <> [].
Proof.
  assert (Hshows : showsCards (BalanceTsx.BalanceScreen wideCurrencies sampleFormat
                                 mixedList EUR) mixedCards)
    by (eexists; eexists; reflexivity).
  split; [exact Hshows|].
  exact (@cards_follow_first_seen_codes float float_Number wideCurrencies sampleFormat
           mixedList EUR mixedCards (or_introl Hshows)).
Defined.

(** X7.  In both versions, when the screen shows a list of cards, the card
    of a code shows the flag and the name of the entry of the code in
    [CURRENCIES], the formatted sums of the amounts of the buys and of the
    sells for the code in the display currency, and, as its net total, the
    formatted difference of the two sums, not converted by the rate; the
    rate only enters the colour. *)
Theorem cards_show_sums_of_their_code :
  forall (num : Type) (N : Number num)
         (CURRENCIES : list CurrencyInfo.t) (formatCurrency : num -> string -> string)
         (transactions : list (Transaction.t num)) (displayCurrency : Currency)
         (items : list BalanceItem),
    showsCards (BalanceTsx.BalanceScreen CURRENCIES formatCurrency transactions
                  displayCurrency) items
    \/ showsCards (Part000.BalanceScreen CURRENCIES formatCurrency transactions
                     displayCurrency) items ->
    Forall (cardShowsSums CURRENCIES formatCurrency transactions displayCurrency) items.
Proof.
  intros num N CURRENCIES formatCurrency transactions displayCurrency items Hshows.
  assert (Hitems := @showsCards_either num N CURRENCIES formatCurrency transactions
                       displayCurrency items Hshows).
  apply renderAll_Forall2, Forall2_right in Hitems.
  apply (Forall_impl _ (P := fun item =>
           exists r, In r (BalanceTsx.balances CURRENCIES transactions displayCurrency)
                     /\ BalanceTsx.renderBalanceItem formatCurrency displayCurrency r
                        = Rendered item)); [|exact Hitems].
  intros item [r [Hr Hrender]].
  rewrite balances_closed in Hr. apply in_map_iff in Hr. destruct Hr as [k [<- _]].
  unfold BalanceTsx.renderBalanceItem in Hrender. simpl in Hrender.
  rewrite entry_currency, entry_buys, entry_sells, entry_target in Hrender.
  destruct (find (fun c => String.eqb (CurrencyInfo.code c) k) CURRENCIES)
    as [entry|] eqn:Hfind; [|discriminate].
  injection Hrender as <-. unfold cardShowsSums. simpl. rewrite Hfind.
  split; [now exists entry|]. repeat split.
Qed.

Lemma cards_show_sums_of_their_code_witness :
  showsCards (BalanceTsx.BalanceScreen wideCurrencies sampleFormat mixedList EUR) mixedCards
  /\ Forall (cardShowsSums wideCurrencies sampleFormat mixedList EUR) mixedCards.
Proof.
  assert (Hshows : showsCards (BalanceTsx.BalanceScreen wideCurrencies sampleFormat
                                 mixedList EUR) mixedCards)
    by (eexists; eexists; reflexivity).
  split; [exact Hshows|].
  exact (@cards_show_sums_of_their_code float float_Number wideCurrencies sampleFormat
           mixedList EUR mixedCards (or_introl Hshows)).
Defined.

(** ** One more transaction *)
Section GrowthFacts.
Context {num : Type} `{Number num}.
Variable CURRENCIES : list CurrencyInfo.t.
Implicit Types (t : Transaction.t num) (l : list (Transaction.t num))
               (b : Balance.t num) (dc : Currency) (k : string).

Local Open Scope num_scope.

Lemma find_over_app {A} (f : A -> bool) (xs ys : list A) :
  find f (xs ++ ys) = match find f xs with Some x => Some x | None => find f ys end.
Proof.
  induction xs as [|x xs IH]; simpl; [reflexivity|]. now destruct (f x).
Qed.

Lemma codesIn_app dc l l' : codesIn dc (l ++ l') = codesIn dc l ++ codesIn dc l'.
Proof. unfold codesIn. now rewrite filter_app, map_app. Qed.

Lemma firstSeen_snoc (cs : list string) k :
  firstSeen (cs ++ [k])
  = if existsb (String.eqb k) cs then firstSeen cs else firstSeen cs ++ [k].
Proof.
  induction cs as [|c cs IH]; simpl; [reflexivity|]. rewrite IH.
  destruct (existsb (String.eqb k) cs) eqn:Hseen.
  - now rewrite orb_true_r.
  - rewrite orb_false_r, filter_app. simpl. rewrite (String.eqb_sym k c).
    destruct (String.eqb c k); simpl; now rewrite ?app_nil_r.
Qed.

Lemma entryFrom_app dc l l' k b :
  entryFrom dc (l ++ l') k b = entryFrom dc l' k (entryFrom dc l k b).
Proof. unfold entryFrom, reaching. now rewrite filter_app, fold_left_app. Qed.

Lemma entryFrom_unseen dc l k b : ~ In k (codesIn dc l) -> entryFrom dc l k b = b.
Proof.
  intros Hk. induction l as [|t l IH]; [reflexivity|].
  destruct (inCurrency dc t) eqn:Hin.
  - rewrite codesIn_cons_in in Hk by exact Hin.
    rewrite entryFrom_cons_other; [apply IH|]; intros Hk'; apply Hk;
      [now right | now left].
  - rewrite codesIn_cons_out in Hk by exact Hin.
    rewrite entryFrom_cons_out by exact Hin. now apply IH.
Qed.

Lemma firstMatch_unseen dc l k : ~ In k (codesIn dc l) -> firstMatch l k dc = None.
Proof.
  intros Hk. unfold firstMatch.
  destruct (find (fun t => hasCode k t && inCurrency dc t) l) as [t|] eqn:Hfind;
    [|reflexivity].
  apply find_some in Hfind. destruct Hfind as [Ht Hmatch].
  apply andb_prop in Hmatch. destruct Hmatch as [Hcode Hin].
  elim Hk. apply In_codesIn. exists t. split; [exact Ht|].
  split; [now apply Currency_eqb_eq | now apply String.eqb_eq].
Qed.

(** The rate in use for a code is that of its first transaction: later
    transactions do not change it. *)
Lemma rateOf_app_seen dc l l' k :
  In k (codesIn dc l) -> BalanceTsx.rateOf (l ++ l') k dc = BalanceTsx.rateOf l k dc.
Proof.
  intros Hk. destruct (firstMatch_defined _ _ _ Hk) as [t [Hfirst _]].
  unfold firstMatch, hasCode, inCurrency in Hfirst.
  unfold BalanceTsx.rateOf. now rewrite find_over_app, Hfirst.
Qed.

Lemma rateOf_app_unseen dc l l' k :
  ~ In k (codesIn dc l) -> BalanceTsx.rateOf (l ++ l') k dc = BalanceTsx.rateOf l' k dc.
Proof.
  intros Hk. apply firstMatch_unseen in Hk.
  unfold firstMatch, hasCode, inCurrency in Hk.
  unfold BalanceTsx.rateOf. now rewrite find_over_app, Hk.
Qed.

(** The row of a code is not touched by a transaction of another code. *)
Lemma row_app_other dc l t k :
  In k (codesIn dc l) ->
  k <> Transaction.currencyCode t ->
  rowOf (l ++ [t]) (k, entryFrom dc (l ++ [t]) k (fresh CURRENCIES k dc))
  = rowOf l (k, entryFrom dc l k (fresh CURRENCIES k dc)).
Proof.
  intros Hk Hne. rewrite entryFrom_app.
  rewrite (@entryFrom_cons_other _ _ dc t [] k) by exact Hne.
  unfold rowOf. change (entryFrom dc [] k ?b) with b.
  now rewrite entry_target, rateOf_app_seen.
Qed.

Lemma row_app_same dc l t :
  inCurrency dc t = true ->
  In (Transaction.currencyCode t) (codesIn dc l) ->
  rowOf (l ++ [t])
        (Transaction.currencyCode t,
         entryFrom dc (l ++ [t]) (Transaction.currencyCode t)
                   (fresh CURRENCIES (Transaction.currencyCode t) dc))
  = nextRow (BalanceTsx.rateOf l (Transaction.currencyCode t) dc)
      (rowOf l (Transaction.currencyCode t,
                entryFrom dc l (Transaction.currencyCode t)
                          (fresh CURRENCIES (Transaction.currencyCode t) dc)))
      t.
Proof.
  intros Hin Hk. rewrite entryFrom_app.
  rewrite (@entryFrom_cons_same _ _ dc t []) by exact Hin.
  change (entryFrom dc [] ?k ?b) with b.
  unfold rowOf, nextRow, bump. simpl.
  destruct (Transaction.type t); simpl;
    now rewrite entry_target, rateOf_app_seen.
Qed.

Lemma row_app_new dc l t :
  inCurrency dc t = true ->
  ~ In (Transaction.currencyCode t) (codesIn dc l) ->
  rowOf (l ++ [t])
        (Transaction.currencyCode t,
         entryFrom dc (l ++ [t]) (Transaction.currencyCode t)
                   (fresh CURRENCIES (Transaction.currencyCode t) dc))
  = firstRow CURRENCIES t.
Proof.
  intros Hin Hk. rewrite entryFrom_app.
  rewrite entryFrom_unseen with (l := l) by exact Hk.
  rewrite (@entryFrom_cons_same _ _ dc t []) by exact Hin.
  change (entryFrom dc [] ?k ?b) with b.
  assert (Htarget : Transaction.targetCurrency t = dc) by now apply Currency_eqb_eq.
  unfold rowOf, firstRow. rewrite Htarget.
  assert (Hdc : Balance.targetCurrency
                  (bump (fresh CURRENCIES (Transaction.currencyCode t) dc) t) = dc)
    by (unfold bump; now destruct (Transaction.type t)).
  rewrite Hdc, rateOf_app_unseen by exact Hk.
  unfold BalanceTsx.rateOf. simpl.
  unfold inCurrency in Hin. now rewrite String.eqb_refl, Hin.
Qed.

Lemma balances_snoc_new dc l t :
  inCurrency dc t = true ->
  ~ In (Transaction.currencyCode t) (codesIn dc l) ->
  BalanceTsx.balances CURRENCIES (l ++ [t]) dc
  = BalanceTsx.balances CURRENCIES l dc ++ [firstRow CURRENCIES t].
Proof.
  intros Hin Hk. rewrite !balances_closed, codesIn_app.
  rewrite (@codesIn_cons_in _ dc t [] Hin). change (codesIn dc []) with (@nil string).
  rewrite firstSeen_snoc.
  replace (existsb (String.eqb (Transaction.currencyCode t)) (codesIn dc l)) with false.
  2:{ symmetry. apply not_true_is_false. intros Hseen. apply Hk.
      now apply existsb_eqb_In. }
  rewrite map_app. cbn [map]. rewrite row_app_new by assumption. f_equal.
  apply map_ext_in. intros k Hseen.
  apply (proj1 (In_firstSeen k (codesIn dc l))) in Hseen.
  apply row_app_other; [exact Hseen|]. intros ->. contradiction.
Qed.

Lemma balances_snoc_seen dc l t :
  inCurrency dc t = true ->
  In (Transaction.currencyCode t) (codesIn dc l) ->
  BalanceTsx.balances CURRENCIES (l ++ [t]) dc
  = map (fun r =>
           if String.eqb (Row.code r) (Transaction.currencyCode t)
           then nextRow (BalanceTsx.rateOf l (Transaction.currencyCode t) dc) r t
           else r)
        (BalanceTsx.balances CURRENCIES l dc).
Proof.
  intros Hin Hk. rewrite !balances_closed, codesIn_app.
  rewrite (@codesIn_cons_in _ dc t [] Hin). change (codesIn dc []) with (@nil string).
  rewrite firstSeen_snoc.
  replace (existsb (String.eqb (Transaction.currencyCode t)) (codesIn dc l)) with true
    by (symmetry; now apply existsb_eqb_In).
  rewrite map_map. apply map_ext_in. intros k Hseen.
  apply (proj1 (In_firstSeen k (codesIn dc l))) in Hseen.
  change (Row.code (rowOf l (k, entryFrom dc l k (fresh CURRENCIES k dc)))) with k.
  destruct (String.eqb_spec k (Transaction.currencyCode t)) as [->|Hne].
  - now apply row_app_same.
  - now apply row_app_other.
Qed.

Lemma balances_snoc_out dc l t :
  inCurrency dc t = false ->
  BalanceTsx.balances CURRENCIES (l ++ [t]) dc = BalanceTsx.balances CURRENCIES l dc.
Proof.
  intros Hout. rewrite <- (balances_filter CURRENCIES (l ++ [t])).
  rewrite filter_app. simpl. rewrite Hout, app_nil_r. apply balances_filter.
Qed.

Lemma totalNetBalanceDZD_snoc l t :
  BalanceTsx.totalNetBalanceDZD (l ++ [t])
  = BalanceTsx.totalNetBalanceDZD l + signedAmount t * Transaction.rate t.
Proof. unfold BalanceTsx.totalNetBalanceDZD. now rewrite fold_left_app. Qed.
End GrowthFacts.

(** X8.  In both versions the rate in use for a code that already has a
    transaction in the display currency is fixed: whatever transactions
    follow, at whatever rates, the lookup returns the same rate. *)
Theorem rate_fixed_by_first_transaction :
  forall (num : Type) (N : Number num)
         (transactions more : list (Transaction.t num)) (displayCurrency : Currency)
         (code : string),
    In code (codesIn displayCurrency transactions) ->
    BalanceTsx.rateOf (transactions ++ more) code displayCurrency
    = BalanceTsx.rateOf transactions code displayCurrency
    /\ Part000.rateOf (transactions ++ more) code displayCurrency
       = Part000.rateOf transactions code displayCurrency.
Proof.
  intros num N transactions more displayCurrency code Hcode.
  split; [now apply rateOf_app_seen|].
  exact (@rateOf_app_seen num N displayCurrency transactions more code Hcode).
Qed.

Lemma rate_fixed_by_first_transaction_witness :
  In "USD" (codesIn EUR mixedList)
  /\ BalanceTsx.rateOf (mixedList ++ [usdSell]) "USD" EUR = 0.9%float
  /\ BalanceTsx.rateOf (mixedList ++ [usdSell]) "USD" EUR
     = BalanceTsx.rateOf mixedList "USD" EUR.
Proof.
  assert (Hcode : In "USD" (codesIn EUR mixedList)) by (now left).
  split; [exact Hcode|]. split; [reflexivity|].
  exact (proj1 (@rate_fixed_by_first_transaction float float_Number mixedList [usdSell]
                  EUR "USD" Hcode)).
Defined.

(** X9.  In both versions, adding at the end of the list a transaction in
    the display currency whose code has no transaction in the display
    currency yet adds one row at the end, built from that transaction
    alone, and leaves the other rows as they are. *)
Theorem new_code_appends_a_row :
  forall (num : Type) (N : Number num) (CURRENCIES : list CurrencyInfo.t)
         (transactions : list (Transaction.t num)) (t : Transaction.t num)
         (displayCurrency : Currency),
    Transaction.targetCurrency t = displayCurrency ->
    ~ In (Transaction.currencyCode t) (codesIn displayCurrency transactions) ->
    BalanceTsx.balances CURRENCIES (transactions ++ [t]) displayCurrency
    = BalanceTsx.balances CURRENCIES transactions displayCurrency
      ++ [firstRow CURRENCIES t]
    /\ Part000.balances CURRENCIES (transactions ++ [t]) displayCurrency
       = Part000.balances CURRENCIES transactions displayCurrency
         ++ [firstRow CURRENCIES t].
Proof.
  intros num N CURRENCIES transactions t displayCurrency Htarget Hnew.
  apply Currency_eqb_eq in Htarget.
  split; [now apply balances_snoc_new|].
  exact (@balances_snoc_new num N CURRENCIES displayCurrency transactions t Htarget Hnew).
Qed.

Lemma new_code_appends_a_row_witness :
  Transaction.targetCurrency chfBuy = EUR
  /\ ~ In (Transaction.currencyCode chfBuy) (codesIn EUR mixedList)
  /\ BalanceTsx.balances wideCurrencies (mixedList ++ [chfBuy]) EUR
     = BalanceTsx.balances wideCurrencies mixedList EUR ++ [firstRow wideCurrencies chfBuy]
  /\ Part000.balances wideCurrencies (mixedList ++ [chfBuy]) EUR
     = Part000.balances wideCurrencies mixedList EUR ++ [firstRow wideCurrencies chfBuy].
Proof.
  assert (Hnew : ~ In (Transaction.currencyCode chfBuy) (codesIn EUR mixedList)).
  { intros [Heq|[Heq|[Heq|[]]]]; discriminate. }
  split; [reflexivity|]. split; [exact Hnew|].
  exact (@new_code_appends_a_row float float_Number wideCurrencies mixedList chfBuy EUR
           eq_refl Hnew).
Defined.

(** X10.  In both versions, adding at the end of the list a transaction in
    the display currency whose code already has a row keeps the rows and
    their order; only the row of that code changes: the amount is added to
    its buys or to its sells, and its net total is recomputed at the rate
    already in use, not at the rate of the new transaction. *)
Theorem seen_code_updates_its_row :
  forall (num : Type) (N : Number num) (CURRENCIES : list CurrencyInfo.t)
         (transactions : list (Transaction.t num)) (t : Transaction.t num)
         (displayCurrency : Currency),
    Transaction.targetCurrency t = displayCurrency ->
    In (Transaction.currencyCode t) (codesIn displayCurrency transactions) ->
    BalanceTsx.balances CURRENCIES (transactions ++ [t]) displayCurrency
    = map (fun r =>
             if String.eqb (Row.code r) (Transaction.currencyCode t)
             then nextRow (BalanceTsx.rateOf transactions (Transaction.currencyCode t)
                             displayCurrency) r t
             else r)
          (BalanceTsx.balances CURRENCIES transactions displayCurrency)
    /\ Part000.balances CURRENCIES (transactions ++ [t]) displayCurrency
       = map (fun r =>
                if String.eqb (Row.code r) (Transaction.currencyCode t)
                then nextRow (Part000.rateOf transactions (Transaction.currencyCode t)
                                displayCurrency) r t
                else r)
             (Part000.balances CURRENCIES transactions displayCurrency).
Proof.
  intros num N CURRENCIES transactions t displayCurrency Htarget Hseen.
  apply Currency_eqb_eq in Htarget.
  split; [now apply balances_snoc_seen|].
  exact (@balances_snoc_seen num N CURRENCIES displayCurrency transactions t Htarget Hseen).
Qed.

Lemma seen_code_updates_its_row_witness :
  Transaction.targetCurrency usdSell = EUR
  /\ In (Transaction.currencyCode usdSell) (codesIn EUR mixedList)
  /\ BalanceTsx.balances wideCurrencies (mixedList ++ [usdSell]) EUR
     = map (fun r =>
              if String.eqb (Row.code r) "USD"
              then nextRow 0.9%float r usdSell
              else r)
           (BalanceTsx.balances wideCurrencies mixedList EUR).
Proof.
  assert (Hseen : In (Transaction.currencyCode usdSell) (codesIn EUR mixedList))
    by (now left).
  split; [reflexivity|]. split; [exact Hseen|].
  exact (proj1 (@seen_code_updates_its_row float float_Number wideCurrencies mixedList
                  usdSell EUR eq_refl Hseen)).
Defined.

(** X11.  In both versions, adding at the end of the list a transaction
    whose target currency is not the display currency leaves the rows as
    they are, while the total in the base currency grows by the signed
    amount of the transaction times its rate. *)
Theorem other_currency_only_moves_the_total :
  forall (num : Type) (N : Number num) (CURRENCIES : list CurrencyInfo.t)
         (transactions : list (Transaction.t num)) (t : Transaction.t num)
         (displayCurrency : Currency),
    Transaction.targetCurrency t <> displayCurrency ->
    BalanceTsx.balances CURRENCIES (transactions ++ [t]) displayCurrency
    = BalanceTsx.balances CURRENCIES transactions displayCurrency
    /\ Part000.balances CURRENCIES (transactions ++ [t]) displayCurrency
       = Part000.balances CURRENCIES transactions displayCurrency
    /\ BalanceTsx.totalNetBalanceDZD (transactions ++ [t])
       = (BalanceTsx.totalNetBalanceDZD transactions
          + signedAmount t * Transaction.rate t)%num
    /\ Total.DZD (Part000.totalNetBalance (transactions ++ [t]) displayCurrency)
       = (Total.DZD (Part000.totalNetBalance transactions displayCurrency)
          + signedAmount t * Transaction.rate t)%num.
Proof.
  intros num N CURRENCIES transactions t displayCurrency Hother.
  assert (Hout : inCurrency displayCurrency t = false).
  { apply not_true_is_false. intros Hin. now apply Currency_eqb_eq in Hin. }
  split; [now apply balances_snoc_out|].
  split; [exact (@balances_snoc_out num N CURRENCIES displayCurrency transactions t Hout)|].
  split; [apply totalNetBalanceDZD_snoc|].
  rewrite !totalNetBalance_DZD. apply totalNetBalanceDZD_snoc.
Qed.

Lemma other_currency_only_moves_the_total_witness :
  Transaction.targetCurrency gbpInUsd <> EUR
  /\ BalanceTsx.balances wideCurrencies (mixedList ++ [gbpInUsd]) EUR
     = BalanceTsx.balances wideCurrencies mixedList EUR
  /\ BalanceTsx.totalNetBalanceDZD (mixedList ++ [gbpInUsd])
     = (BalanceTsx.totalNetBalanceDZD mixedList + 3 * 1.3)%float.
Proof.
  assert (Hother : Transaction.targetCurrency gbpInUsd <> EUR) by discriminate.
  split; [exact Hother|].
  destruct (@other_currency_only_moves_the_total float float_Number wideCurrencies
              mixedList gbpInUsd EUR Hother) as [Hrows [_ [Htotal _]]].
  split; [exact Hrows | exact Htotal].
Defined.

(** ** The summary card *)
Section CardFacts.
Context {num : Type} `{Number num}.
Variable CURRENCIES : list CurrencyInfo.t.
Variable formatCurrency : num -> string -> string.
Implicit Types (t : Transaction.t num) (l : list (Transaction.t num)) (dc : Currency).

Local Open Scope num_scope.

(** The summary card of the second version. *)
Lemma Part000_BalanceScreen_card l dc card :
  showsCard (Part000.BalanceScreen CURRENCIES formatCurrency l dc) card ->
  card = {| cardLabel := "Total Net Balance:";
            primaryValue :=
              {| valueStyle := Part000.styleOf (baseTotal l);
                 valueText := formatCurrency (baseTotal l) "DZD" |};
            secondaryValue :=
              if Part000.average (ratesIn dc l) >? nzero then
                Some {| valueStyle :=
                          Part000.styleOf (Total.converted (Part000.totalNetBalance l dc));
                        valueText :=
                          formatCurrency (Total.converted (Part000.totalNetBalance l dc))
                                         (Currency_name dc) |}
              else None |}.
Proof.
  intros [selector [area Hscreen]]. unfold Part000.BalanceScreen in Hscreen.
  rewrite averageRates_ratesIn, totalNetBalance_DZD, totalNetBalanceDZD_baseTotal
    in Hscreen.
  destruct (0 <? List.length l)%nat; [|discriminate].
  destruct (0 <? List.length _)%nat.
  - destruct (renderAll _ _); simpl in Hscreen; [|discriminate].
    now injection Hscreen as _ <- _.
  - now injection Hscreen as _ <- _.
Qed.

Lemma converted_positive {L : @PositiveLaws num _} l dc :
  (Part000.average (ratesIn dc l) >? nzero) = true ->
  Total.converted (Part000.totalNetBalance l dc)
  = baseTotal l / Part000.average (ratesIn dc l).
Proof.
  intros Hpos. rewrite converted_unfold, averageRates_ratesIn.
  rewrite (positive_truthy _ Hpos).
  now rewrite totalNetBalance_DZD, totalNetBalanceDZD_baseTotal.
Qed.

Lemma ratesIn_filter dc l : ratesIn dc (filter (inCurrency dc) l) = ratesIn dc l.
Proof.
  unfold ratesIn. rewrite filter_twice. f_equal.
  apply filter_ext. intros t. now destruct (inCurrency dc t).
Qed.

Lemma ratesIn_lengths l :
  (List.length (ratesIn EUR l) + List.length (ratesIn USD l) = List.length l)%nat.
Proof.
  unfold ratesIn, inCurrency. induction l as [|t l IH]; simpl; [reflexivity|].
  destruct (Transaction.targetCurrency t); simpl; lia.
Qed.
End CardFacts.

(** X12.  In both versions, whenever the screen shows a summary card,
    above a list of cards or above the message, its first value is the
    formatted total in the base currency over all the transactions, in the
    positive style exactly when that total is greater than zero; the first
    version shows no second value. *)
Theorem summary_card_shows_base_total :
  forall (num : Type) (N : Number num)
         (CURRENCIES : list CurrencyInfo.t) (formatCurrency : num -> string -> string)
         (transactions : list (Transaction.t num)) (displayCurrency : Currency)
         (card : TotalBalanceCard),
    showsCard (BalanceTsx.BalanceScreen CURRENCIES formatCurrency transactions
                 displayCurrency) card
    \/ showsCard (Part000.BalanceScreen CURRENCIES formatCurrency transactions
                    displayCurrency) card ->
    valueText (primaryValue card) = formatCurrency (baseTotal transactions) "DZD"
    /\ (valueStyle (primaryValue card) = positive
        <-> (baseTotal transactions >? nzero)%num = true)
    /\ (showsCard (BalanceTsx.BalanceScreen CURRENCIES formatCurrency transactions
                     displayCurrency) card ->
        secondaryValue card = None).
Proof.
  intros num N CURRENCIES formatCurrency transactions displayCurrency card Hshows.
  assert (Hprimary :
    primaryValue card
    = {| valueStyle := BalanceTsx.styleOf (baseTotal transactions);
         valueText := formatCurrency (baseTotal transactions) "DZD" |}).
  { destruct Hshows as [Hshows|Hshows].
    - apply BalanceScreen_card in Hshows. now subst card.
    - apply Part000_BalanceScreen_card in Hshows. now subst card. }
  rewrite Hprimary. simpl. split; [reflexivity|]. split.
  - unfold BalanceTsx.styleOf.
    destruct (baseTotal transactions >? nzero)%num; split; congruence.
  - intros Hfirst. apply BalanceScreen_card in Hfirst. now subst card.
Qed.

Lemma summary_card_shows_base_total_witness :
  exists card,
    showsCard (BalanceTsx.BalanceScreen wideCurrencies sampleFormat mixedList USD) card
    /\ valueText (primaryValue card) = "DZD"
    /\ valueStyle (primaryValue card) = positive.
Proof.
  eexists. split; [eexists; eexists; reflexivity|].
  split; [reflexivity|].
  apply (proj1 (proj2 (@summary_card_shows_base_total float float_Number wideCurrencies
                         sampleFormat mixedList USD _
                         (or_introl (ex_intro _ _ (ex_intro _ _ eq_refl)))))).
  reflexivity.
Defined.

(** X13.  In the version that converts the total, the second value of the
    summary card is shown exactly when the average rate of the display
    currency is greater than zero, and it is then the formatted quotient of
    the total in the base currency by that average, in the positive style
    exactly when the quotient is greater than zero: the fallback [0] of the
    conversion is never shown. *)
Theorem converted_total_shown_when_rate_positive :
  forall (num : Type) (N : Number num) (L : @PositiveLaws num N)
         (CURRENCIES : list CurrencyInfo.t) (formatCurrency : num -> string -> string)
         (transactions : list (Transaction.t num)) (displayCurrency : Currency)
         (card : TotalBalanceCard),
    showsCard (Part000.BalanceScreen CURRENCIES formatCurrency transactions
                 displayCurrency) card ->
    (secondaryValue card = None
     <-> (ratesAt (Part000.averageRates transactions) displayCurrency >? nzero)%num
         = false)
    /\ forall value,
         secondaryValue card = Some value ->
         valueText value
         = formatCurrency
             (baseTotal transactions
              / ratesAt (Part000.averageRates transactions) displayCurrency)%num
             (Currency_name displayCurrency)
         /\ valueStyle value
            = Part000.styleOf
                (baseTotal transactions
                 / ratesAt (Part000.averageRates transactions) displayCurrency)%num.
Proof.
  intros num N L CURRENCIES formatCurrency transactions displayCurrency card Hshows.
  apply Part000_BalanceScreen_card in Hshows. subst card. cbn [secondaryValue].
  rewrite averageRates_ratesIn.
  destruct (Part000.average (ratesIn displayCurrency transactions) >? nzero)%num
    eqn:Hpos.
  - split; [split; discriminate|].
    intros value [= <-]. cbn [valueText valueStyle].
    assert (Hconv := @converted_positive num N L transactions displayCurrency Hpos).
    split; f_equal; exact Hconv.
  - split; [split; reflexivity|]. discriminate.
Qed.

Lemma converted_total_shown_when_rate_positive_witness :
  exists card value,
    showsCard (Part000.BalanceScreen wideCurrencies sampleFormat mixedList EUR) card
    /\ secondaryValue card = Some value
    /\ valueText value = "EUR".
Proof.
  eexists. eexists. split; [eexists; eexists; reflexivity|].
  split; [reflexivity|].
  exact (proj1 (proj2 (@converted_total_shown_when_rate_positive float float_Number
                         float_PositiveLaws wideCurrencies sampleFormat mixedList EUR _
                         (ex_intro _ _ (ex_intro _ _ eq_refl)))
                  _ eq_refl)).
Defined.

(** X14.  In the version that converts the total, the rates are collected
    by target currency: the rates kept for a currency are those of the
    transactions recorded against it, in list order; every transaction
    gives its rate to exactly one of the two lists; and the average rate of
    a currency does not depend on the transactions recorded against the
    other. *)
Theorem rates_are_collected_by_target :
  forall (num : Type) (N : Number num) (transactions : list (Transaction.t num)),
    Rates.EUR (Part000.collectRates transactions) = ratesIn EUR transactions
    /\ Rates.USD (Part000.collectRates transactions) = ratesIn USD transactions
    /\ (List.length (Rates.EUR (Part000.collectRates transactions))
        + List.length (Rates.USD (Part000.collectRates transactions))
        = List.length transactions)%nat
    /\ forall displayCurrency,
         ratesAt (Part000.averageRates (filter (inCurrency displayCurrency) transactions))
                 displayCurrency
         = ratesAt (Part000.averageRates transactions) displayCurrency.
Proof.
  intros num N transactions.
  assert (HE := collectRates_ratesIn transactions EUR).
  assert (HU := collectRates_ratesIn transactions USD).
  simpl in HE, HU. split; [exact HE|]. split; [exact HU|]. split.
  - rewrite HE, HU. apply ratesIn_lengths.
  - intros displayCurrency. now rewrite !averageRates_ratesIn, ratesIn_filter.
Qed.

(** ** C9: the selector of the display currency *)
Section AfterToggle.
Context {num : Type} `{Number num}.
Variable CURRENCIES : list CurrencyInfo.t.
Variable formatCurrency : num -> string -> string.
Implicit Types (t : Transaction.t num) (l : list (Transaction.t num)) (dc : Currency).






End AfterToggle.


(** After a press from EUR, [mixedList] is shown in USD: the selector reads
    USD and the only card is that of the dollars bought in USD. *)
Example press_shows_mixedList_in_USD :
  BalanceTsx_render wideCurrencies sampleFormat
    (BalanceTsx_onPress (initialState mixedList))
  = Rendered
      (Summary "USD"
         {| cardLabel := "Total Net Balance (DZD):";
            primaryValue := {| valueStyle := positive; valueText := "DZD" |};
            secondaryValue := None |}
         (FlatList
            [ {| flagUri := "usd.png"; currencyName := "US Dollar";
                 currencyCodeText := "USD"; totalBuys := "USD"; totalSells := "USD";
                 netTotalStyle := positive; netTotalText := "USD" |} ])).
Proof. reflexivity. Qed.
